(** * hairybear-web: a shallow embedding of the viewer's application logic

    The development follows the TypeScript sources of the 3D bear viewer:
    the type declarations ([bear.types.ts]), the animation catalog
    ([animation-config.ts]), the hooks [useDevicePerformance],
    [useResponsive] and [useBearModel], the components [TapToStart] and
    [ErrorBoundary], and the composition root [App].

    JavaScript numbers that only carry integers (pixel widths, frame rates,
    milliseconds) are [Z]; decimal constants and device-reported ratios are
    exact rationals [Q] wrapped in [Js.number], which adds the special
    values [NaN] and the two infinities.  Objects used as dictionaries are
    [gmap string _]; React state is threaded explicitly. *)

From stdpp Require Import gmap strings list fin_maps.
From Stdlib Require Import QArith Qminmax ZArith Lia.
Close Scope Q_scope.

(** ** JavaScript values used by the hooks *)

Module Js.

(** An IEEE number as far as the code below observes it: [Math.min], [<]
    and truthiness are exact on finite values, so rationals suffice. *)
Inductive number : Type :=
| NaN
| PosInfinity
| NegInfinity
| Finite (q : Q).

(** [ToBoolean] on numbers: [0] and [NaN] are falsy. *)
Definition truthy (x : number) : bool :=
  match x with
  | NaN => false
  | Finite q => negb (Qeq_bool q 0)
  | PosInfinity | NegInfinity => true
  end.

(** [v || d] where [v] is a possibly [undefined] number ([None]). *)
Definition or_else (v : option number) (d : number) : number :=
  match v with
  | Some x => if truthy x then x else d
  | None => d
  end.

(** [a < b]; any comparison with [NaN] is false. *)
Definition lt (a b : number) : bool :=
  match a, b with
  | NaN, _ | _, NaN => false
  | PosInfinity, _ => false
  | _, NegInfinity => false
  | NegInfinity, _ => true
  | Finite _, PosInfinity => true
  | Finite p, Finite q => negb (Qle_bool q p)
  end.

(** [Math.min(a, b)]. *)
Definition Math_min (a b : number) : number :=
  match a, b with
  | NaN, _ | _, NaN => NaN
  | NegInfinity, _ | _, NegInfinity => NegInfinity
  | PosInfinity, y => y
  | x, PosInfinity => x
  | Finite p, Finite q => Finite (Qmin p q)
  end.

(** [a <= b] as a proposition; it never holds of [NaN]. *)
Definition le (a b : number) : Prop :=
  match a, b with
  | NaN, _ | _, NaN => False
  | NegInfinity, _ => True
  | _, PosInfinity => True
  | PosInfinity, _ => False
  | _, NegInfinity => False
  | Finite p, Finite q => (p <= q)%Q
  end.

(** ASCII lower-casing, the canonicalisation behind the [i] flag for the
    ASCII patterns used here. *)
Definition toLowerAscii (c : Ascii.ascii) : Ascii.ascii :=
  let n := Ascii.nat_of_ascii c in
  if (Nat.leb 65 n && Nat.leb n 90)%bool then Ascii.ascii_of_nat (n + 32) else c.

Fixpoint toLowerCase (s : string) : string :=
  match s with
  | EmptyString => EmptyString
  | String c s' => String (toLowerAscii c) (toLowerCase s')
  end.

(** [s.includes(sub)]. *)
Fixpoint includes (sub s : string) : bool :=
  if String.prefix sub s then true
  else match s with
       | EmptyString => false
       | String _ s' => includes sub s'
       end.

(** What evaluating a statement yields: a normal completion or a thrown
    exception. *)
Inductive Exception : Type :=
| TypeError (msg : string).

Inductive Completion (A : Type) : Type :=
| Normal (a : A)
| Throw (e : Exception).
Arguments Normal {A} a.
Arguments Throw {A} e.

Definition bind {A B} (c : Completion A) (k : A -> Completion B) : Completion B :=
  match c with
  | Normal a => k a
  | Throw e => Throw e
  end.

(** Reading a member of a reference that may be [undefined]. *)
Definition deref {A} (o : option A) : Completion A :=
  match o with
  | Some a => Normal a
  | None => Throw (TypeError "Cannot read properties of undefined")
  end.

Definition dquote : string := String (Ascii.ascii_of_nat 34) EmptyString.

(** The member names every plain object inherits from [Object.prototype];
    each of them holds a function, or for [__proto__] the prototype object,
    so the value read under such a name is truthy. *)
Definition objectPrototypeKeys : list string :=
  [ "constructor"; "__defineGetter__"; "__defineSetter__"; "hasOwnProperty";
    "__lookupGetter__"; "__lookupSetter__"; "isPrototypeOf"; "propertyIsEnumerable";
    "toString"; "valueOf"; "__proto__"; "toLocaleString" ]%string.

(** What [obj[key]] yields on a plain object: an own property's value, a
    member inherited from [Object.prototype], or [undefined]. *)
Inductive Member (A : Type) : Type :=
| Own (a : A)
| Inherited
| Missing.
Arguments Own {A} a.
Arguments Inherited {A}.
Arguments Missing {A}.

(** [obj[key]], given the own property under [key] if there is one. *)
Definition member {A : Type} (own : option A) (key : string) : Member A :=
  match own with
  | Some a => Own a
  | None => if bool_decide (key ∈ objectPrototypeKeys) then Inherited else Missing
  end.

(** [ToNumber] of a possibly [undefined] number. *)
Definition ToNumber (v : option number) : number :=
  match v with
  | Some x => x
  | None => NaN
  end.

End Js.

(** ** [src/types/bear.types.ts] *)

Module Types.

Inductive AnimationCategory : Type := dance | action | gesture | movement | emotion.
Inductive DeviceType : Type := desktop | tablet | mobile.
Inductive PerformanceTier : Type := high | medium | low.
Inductive Orientation : Type := portrait | landscape.
Inductive LoadingStatus : Type := idle | loading | loaded | error.

Record ColorScheme : Type := mkColorScheme {
  hueShift : Q;
  colorFrequency : Q;
  bloom : Q;
  saturation : Q
}.

Record Animation : Type := mkAnimation {
  id : string;
  name : string;
  displayName : string;
  duration : Q;
  colorScheme : ColorScheme;
  category : AnimationCategory
}.

(** The string literals of the union type [ActionName]. *)
Definition ActionName : list string :=
  [ "hip-hop-dancing";
    "jumping";
    "punching";
    "running";
    "sitting-clap";
    "sitting-pose";
    "walking";
    "weaving";
    "cheering";
    "crying";
    "bowing";
    "noding";
    "head-spinning";
    "welcome";
    "clapping";
    "climbing";
    "run-away";
    "praying";
    "fall-down";
    "looking-right";
    "laying";
    "lying-down";
    "salute";
    "melee-attack";
    "heavy-hit";
    "look-around";
    "situp";
    "soul-spin";
    "break-dance";
    "swing-dance";
    "jogging-box";
    "clown-walk";
    "jumping-jack";
    "strong-gesture";
    "dancing";
    "praying-down";
    "silly-dancing";
    "standing-clap";
    "sneaking-right";
    "standing-torch-run-forward" ]%string.

Definition MIN_VIEWPORT_WIDTH : Z := 320.

Module BREAKPOINTS.
Definition mobile : Z := 768.
Definition tablet : Z := 1024.
End BREAKPOINTS.

#[export] Instance DeviceType_eq_dec : EqDecision DeviceType.
Proof. solve_decision. Defined.
#[export] Instance PerformanceTier_eq_dec : EqDecision PerformanceTier.
Proof. solve_decision. Defined.

End Types.

(** ** [src/types/bear.types.ts]: the constant tables *)

Module Presets.
Import Types.
Local Open Scope Q_scope.

Record PerformanceSettings : Type := {
  targetFPS : Z;
  shadowsEnabled : bool;
  textureQuality : PerformanceTier;     (* the same three labels as the tier *)
  antialias : bool;
  pixelRatio : Js.number;
  prismSimplified : bool
}.

Record ResponsiveScale : Type := {
  bearScale : Q;
  carouselHeight : Z;
  thumbnailSize : Z
}.

(** milliseconds *)
Definition ANIMATION_TRANSITION_DURATION : Z := 500.

(** The table is built when the module loads.  [window] is [None] where
    [typeof window === 'undefined'], and otherwise holds
    [window.devicePixelRatio], itself possibly [undefined]. *)
Definition PERFORMANCE_SETTINGS (window : option (option Js.number)) (t : PerformanceTier)
  : PerformanceSettings :=
  match t with
  | high =>
      {| targetFPS := 30;
         shadowsEnabled := true;
         textureQuality := high;
         antialias := true;
         pixelRatio := Js.Math_min (Js.Finite 2)
                         (match window with
                          | Some devicePixelRatio => Js.ToNumber devicePixelRatio
                          | None => Js.Finite 1
                          end);
         prismSimplified := false |}
  | medium =>
      {| targetFPS := 30;
         shadowsEnabled := true;
         textureQuality := medium;
         antialias := false;
         pixelRatio := Js.Finite 1;
         prismSimplified := false |}
  | low =>
      {| targetFPS := 18;
         shadowsEnabled := false;
         textureQuality := low;
         antialias := false;
         pixelRatio := Js.Finite 1;
         prismSimplified := true |}
  end.

Definition RESPONSIVE_SCALES (d : DeviceType) : ResponsiveScale :=
  match d with
  | desktop => {| bearScale := 1.0; carouselHeight := 120; thumbnailSize := 80 |}
  | tablet => {| bearScale := 0.8; carouselHeight := 100; thumbnailSize := 64 |}
  | mobile => {| bearScale := 0.6; carouselHeight := 80; thumbnailSize := 48 |}
  end.

End Presets.

(** ** [src/utils/animation-config.ts] *)

Module AnimationConfig.
Import Types.
Local Open Scope Q_scope.
Local Open Scope string_scope.

(** The record literal [ANIMATION_CONFIG], in source order. *)
Definition ANIMATION_CONFIG : list (string * Animation) := [
  ("hip-hop-dancing", mkAnimation "hip-hop-dancing" "hip-hop-dancing" "Hip Hop Dancing" 3.5 (mkColorScheme 0.8 1.5 1.8 1.7) dance);
  ("jumping", mkAnimation "jumping" "jumping" "Jumping" 1.2 (mkColorScheme 0.3 1.8 1.5 1.5) action);
  ("punching", mkAnimation "punching" "punching" "Punching" 1.5 (mkColorScheme (-0.5) 1.6 1.7 1.8) action);
  ("running", mkAnimation "running" "running" "Running" 2.0 (mkColorScheme 0.4 1.7 1.4 1.6) movement);
  ("sitting-clap", mkAnimation "sitting-clap" "sitting-clap" "Sitting Clap" 2.5 (mkColorScheme 0.6 1.3 1.5 1.4) gesture);
  ("sitting-pose", mkAnimation "sitting-pose" "sitting-pose" "Sitting Pose" 3.0 (mkColorScheme 0.2 1.0 1.3 1.3) gesture);
  ("walking", mkAnimation "walking" "walking" "Walking" 2.5 (mkColorScheme 0.1 1.2 1.2 1.4) movement);
  ("weaving", mkAnimation "weaving" "weaving" "Weaving" 2.8 (mkColorScheme 0.7 1.4 1.6 1.5) movement);
  ("cheering", mkAnimation "cheering" "cheering" "Cheering" 2.2 (mkColorScheme 0.9 1.6 1.9 1.9) emotion);
  ("crying", mkAnimation "crying" "crying" "Crying" 3.0 (mkColorScheme (-0.8) 0.8 1.1 1.2) emotion);
  ("bowing", mkAnimation "bowing" "bowing" "Bowing" 2.0 (mkColorScheme 0.5 1.1 1.4 1.3) gesture);
  ("noding", mkAnimation "noding" "noding" "Nodding" 1.5 (mkColorScheme 0.3 1.3 1.3 1.4) gesture);
  ("head-spinning", mkAnimation "head-spinning" "head-spinning" "Head Spinning" 2.5 (mkColorScheme 1.0 1.9 1.8 1.8) action);
  ("welcome", mkAnimation "welcome" "welcome" "Welcome" 2.0 (mkColorScheme 0.6 1.4 1.6 1.6) gesture);
  ("clapping", mkAnimation "clapping" "clapping" "Clapping" 1.8 (mkColorScheme 0.4 1.5 1.5 1.5) gesture);
  ("climbing", mkAnimation "climbing" "climbing" "Climbing" 3.5 (mkColorScheme 0.2 1.3 1.4 1.5) action);
  ("run-away", mkAnimation "run-away" "run-away" "Run Away" 2.3 (mkColorScheme (-0.3) 1.7 1.6 1.7) movement);
  ("praying", mkAnimation "praying" "praying" "Praying" 3.0 (mkColorScheme 0.5 0.9 1.3 1.2) gesture);
  ("fall-down", mkAnimation "fall-down" "fall-down" "Fall Down" 2.0 (mkColorScheme (-0.6) 1.4 1.2 1.3) action);
  ("looking-right", mkAnimation "looking-right" "looking-right" "Looking Right" 1.5 (mkColorScheme 0.3 1.1 1.3 1.3) gesture);
  ("laying", mkAnimation "laying" "laying" "Laying" 2.5 (mkColorScheme 0.1 0.8 1.2 1.2) gesture);
  ("lying-down", mkAnimation "lying-down" "lying-down" "Lying Down" 2.8 (mkColorScheme 0.0 0.7 1.1 1.1) gesture);
  ("salute", mkAnimation "salute" "salute" "Salute" 1.8 (mkColorScheme 0.4 1.2 1.4 1.4) gesture);
  ("melee-attack", mkAnimation "melee-attack" "melee-attack" "Melee Attack" 2.0 (mkColorScheme (-0.7) 1.8 1.9 1.9) action);
  ("heavy-hit", mkAnimation "heavy-hit" "heavy-hit" "Heavy Hit" 1.5 (mkColorScheme (-0.9) 1.9 2.0 2.0) action);
  ("look-around", mkAnimation "look-around" "look-around" "Look Around" 2.5 (mkColorScheme 0.2 1.2 1.3 1.3) gesture);
  ("situp", mkAnimation "situp" "situp" "Sit Up" 2.0 (mkColorScheme 0.3 1.3 1.4 1.4) action);
  ("soul-spin", mkAnimation "soul-spin" "soul-spin" "Soul Spin" 3.0 (mkColorScheme 1.2 1.8 1.9 1.9) dance);
  ("break-dance", mkAnimation "break-dance" "break-dance" "Break Dance" 4.0 (mkColorScheme 0.9 1.7 1.8 1.8) dance);
  ("swing-dance", mkAnimation "swing-dance" "swing-dance" "Swing Dance" 3.5 (mkColorScheme 0.7 1.6 1.7 1.7) dance);
  ("jogging-box", mkAnimation "jogging-box" "jogging-box" "Jogging Box" 2.5 (mkColorScheme 0.4 1.5 1.5 1.6) movement);
  ("clown-walk", mkAnimation "clown-walk" "clown-walk" "Clown Walk" 2.8 (mkColorScheme 0.8 1.6 1.7 1.7) movement);
  ("jumping-jack", mkAnimation "jumping-jack" "jumping-jack" "Jumping Jack" 2.0 (mkColorScheme 0.5 1.6 1.6 1.6) action);
  ("strong-gesture", mkAnimation "strong-gesture" "strong-gesture" "Strong Gesture" 1.8 (mkColorScheme 0.6 1.4 1.7 1.7) gesture);
  ("dancing", mkAnimation "dancing" "dancing" "Dancing" 3.5 (mkColorScheme 0.8 1.5 1.7 1.7) dance);
  ("praying-down", mkAnimation "praying-down" "praying-down" "Praying Down" 3.0 (mkColorScheme 0.4 0.9 1.2 1.2) gesture);
  ("silly-dancing", mkAnimation "silly-dancing" "silly-dancing" "Silly Dancing" 3.2 (mkColorScheme 1.0 1.8 1.9 1.9) dance);
  ("standing-clap", mkAnimation "standing-clap" "standing-clap" "Standing Clap" 2.0 (mkColorScheme 0.5 1.4 1.5 1.5) gesture);
  ("sneaking-right", mkAnimation "sneaking-right" "sneaking-right" "Sneaking Right" 2.5 (mkColorScheme 0.2 1.2 1.3 1.4) movement);
  ("standing-torch-run-forward", mkAnimation "standing-torch-run-forward" "standing-torch-run-forward" "Torch Run Forward" 2.5 (mkColorScheme 0.6 1.5 1.8 1.7) movement)
].

(** [Object.values(ANIMATION_CONFIG)]: the entries in insertion order. *)
Definition ANIMATIONS : list Animation := map snd ANIMATION_CONFIG.

Fixpoint assoc (k : string) (l : list (string * Animation)) : option Animation :=
  match l with
  | [] => None
  | (k', v) :: l' => if String.eqb k k' then Some v else assoc k l'
  end.

(** [ANIMATION_CONFIG[name]]: a lookup on the object literal, which also
    sees the members every object inherits. *)
Definition getAnimationByName (n : string) : Js.Member Animation :=
  Js.member (assoc n ANIMATION_CONFIG) n.

Definition DEFAULT_ANIMATION : string := "hip-hop-dancing".

End AnimationConfig.

(** ** [src/hooks/useDevicePerformance.ts] *)

Module DevicePerformance.
Import Types.
Local Open Scope string_scope.

(** The probed rendering context: whether it has a [getExtension] member,
    and what [WEBGL_debug_renderer_info] reports as the unmasked renderer
    ([None] when the extension is missing). *)
Record WebGLContext : Type := {
  hasGetExtension : bool;
  debugRendererInfo : option string
}.

(** What the effect reads from [document], [navigator] and [window]. *)
Record Browser : Type := {
  webgl : option WebGLContext;
  experimental_webgl : option WebGLContext;
  userAgent : string;
  deviceMemory : option Js.number;
  devicePixelRatio : option Js.number
}.

(** The argument of a React state setter: a value or an updater. *)
Inductive SetStateAction (S : Type) : Type :=
| SetValue (v : S)
| SetUpdater (f : S -> S).
Arguments SetValue {S} v.
Arguments SetUpdater {S} f.

Definition applyAction {S} (a : SetStateAction S) (prev : S) : S :=
  match a with
  | SetValue v => v
  | SetUpdater f => f prev
  end.

Record State : Type := {
  tier : PerformanceTier;
  gpuInfo : string;
  supportsWebGL : bool
}.

(** The three [useState] initial values. *)
Definition initialState : State :=
  {| tier := medium; gpuInfo := ""; supportsWebGL := true |}.

Inductive Dispatch : Type :=
| setTier (a : SetStateAction PerformanceTier)
| setGpuInfo (s : string)
| setSupportsWebGL (b : bool).

(** React applies queued setter calls in the order they were issued. *)
Definition reduce (s : State) (d : Dispatch) : State :=
  match d with
  | setTier a =>
      {| tier := applyAction a (tier s); gpuInfo := gpuInfo s; supportsWebGL := supportsWebGL s |}
  | setGpuInfo g =>
      {| tier := tier s; gpuInfo := g; supportsWebGL := supportsWebGL s |}
  | setSupportsWebGL b =>
      {| tier := tier s; gpuInfo := gpuInfo s; supportsWebGL := b |}
  end.

(** [canvas.getContext('webgl') || canvas.getContext('experimental-webgl')] *)
Definition getContext (b : Browser) : option WebGLContext :=
  match webgl b with
  | Some gl => Some gl
  | None => experimental_webgl b
  end.

(** Renderer-string classification. *)
Definition classify (renderer : string) : list Dispatch :=
  if Js.includes "Intel" renderer then [setTier (SetValue medium)]
  else if Js.includes "NVIDIA" renderer || Js.includes "AMD" renderer
          || Js.includes "Radeon" renderer then [setTier (SetValue high)]
  else if Js.includes "Apple" renderer then [setTier (SetValue high)]
  else [].

(** [/Mobi|Android/i.test(navigator.userAgent)] *)
Definition isMobileUserAgent (ua : string) : bool :=
  let l := Js.toLowerCase ua in
  Js.includes "mobi" l || Js.includes "android" l.

(** [prev => { if (prev === 'high') return 'medium'; return 'low'; }] *)
Definition mobileCap (prev : PerformanceTier) : PerformanceTier :=
  if decide (prev = high) then medium else low.

(** [memory && memory < 4] *)
Definition isLowMemory (memory : option Js.number) : bool :=
  match memory with
  | Some m => Js.truthy m && Js.lt m (Js.Finite 4)
  | None => false
  end.

(** [prev => prev === 'high' ? 'medium' : 'low'] *)
Definition lowMemoryCap (prev : PerformanceTier) : PerformanceTier :=
  if decide (prev = high) then medium else low.

(** [!gl || !('getExtension' in gl)] *)
Definition webglUnavailable (b : Browser) : bool :=
  match getContext b with
  | None => true
  | Some gl => negb (hasGetExtension gl)
  end.

(** The early-return branch: [setSupportsWebGL(false); setTier('low'); return;] *)
Definition unsupported : list Dispatch :=
  [setSupportsWebGL false; setTier (SetValue low)].

(** "Get GPU info": the renderer query and its classification. *)
Definition gpuProbe (b : Browser) : list Dispatch :=
  match getContext b with
  | Some gl =>
      match debugRendererInfo gl with
      | Some renderer => setGpuInfo renderer :: classify renderer
      | None => []
      end
  | None => []
  end.

(** The two downgrade steps that follow: mobile detection, then the
    low-memory check. *)
Definition downgrades (b : Browser) : list Dispatch :=
  (if isMobileUserAgent (userAgent b) then [setTier (SetUpdater mobileCap)] else [])
  ++ (if isLowMemory (deviceMemory b) then [setTier (SetUpdater lowMemoryCap)] else []).

(** The body of the mount effect, as the sequence of setter calls it issues. *)
Definition effect (b : Browser) : list Dispatch :=
  if webglUnavailable b then unsupported
  else gpuProbe b ++ downgrades b.

(** The hook's state once the effect (dependency list [[]]) has run. *)
Definition mounted (b : Browser) : State :=
  fold_left reduce (effect b) initialState.

(** The state the renderer probe alone leads to, before any downgrade. *)
Definition probed (b : Browser) : State :=
  fold_left reduce (gpuProbe b) initialState.

(** [tier === 'low' ? 18 : 30] *)
Definition targetFPS (s : State) : Z :=
  if decide (tier s = low) then 18 else 30.

(** [Math.min(2, window.devicePixelRatio || 1)] *)
Definition pixelRatio (b : Browser) : Js.number :=
  Js.Math_min (Js.Finite 2) (Js.or_else (devicePixelRatio b) (Js.Finite 1)).

(** The order [low < medium < high]. *)
Definition rank (t : PerformanceTier) : Z :=
  match t with
  | low => 0
  | medium => 1
  | high => 2
  end.

(** The setter calls a session issues on [tier]: those of the mount
    effect, then the consumer's calls of the exported [setTier], whose type
    [(tier: PerformanceTier) => void] admits values only. *)
Definition tierActions (ds : list Dispatch) : list (SetStateAction PerformanceTier) :=
  flat_map (fun d => match d with setTier a => [a] | _ => [] end) ds.

Definition session (b : Browser) (overrides : list PerformanceTier)
  : list (SetStateAction PerformanceTier) :=
  tierActions (effect b) ++ map SetValue overrides.

Definition runTier (acts : list (SetStateAction PerformanceTier)) (t : PerformanceTier)
  : PerformanceTier :=
  fold_left (fun prev a => applyAction a prev) acts t.

End DevicePerformance.

(** ** [src/hooks/useResponsive.ts] *)

Module Responsive.
Import Types.

(** [width < BREAKPOINTS.mobile ? 'mobile' : width < BREAKPOINTS.tablet ? 'tablet' : 'desktop'] *)
Definition deviceTypeOf (width : Z) : DeviceType :=
  if (width <? BREAKPOINTS.mobile)%Z then mobile
  else if (width <? BREAKPOINTS.tablet)%Z then tablet
  else desktop.

(** [width > height ? 'landscape' : 'portrait'] *)
Definition orientationOf (width height : Z) : Orientation :=
  if (height <? width)%Z then landscape else portrait.

Record UseResponsiveReturn : Type := {
  width : Z;
  height : Z;
  deviceType : DeviceType;
  orientation : Orientation;
  isMobile : bool;
  isTablet : bool;
  isDesktop : bool;
  isPortrait : bool;
  isLandscape : bool;
  isBelowMinWidth : bool
}.

(** The value the hook returns for the state pair [(width, height)]. *)
Definition useResponsive (w h : Z) : UseResponsiveReturn :=
  let dt := deviceTypeOf w in
  let o := orientationOf w h in
  {| width := w;
     height := h;
     deviceType := dt;
     orientation := o;
     isMobile := bool_decide (dt = mobile);
     isTablet := bool_decide (dt = tablet);
     isDesktop := bool_decide (dt = desktop);
     isPortrait := match o with portrait => true | landscape => false end;
     isLandscape := match o with landscape => true | portrait => false end;
     isBelowMinWidth := (w <? MIN_VIEWPORT_WIDTH)%Z |}.

(** The hook instance together with the window it listens to.  [timeoutId]
    is the pending timer, recorded as the time at which it fires. *)
Record Tracker : Type := {
  stateWidth : Z;
  stateHeight : Z;
  innerWidth : Z;
  innerHeight : Z;
  timeoutId : option Z;
  now : Z
}.

(** [useState(window.innerWidth)], [useState(window.innerHeight)] *)
Definition init (w h : Z) : Tracker :=
  {| stateWidth := w; stateHeight := h; innerWidth := w; innerHeight := h;
     timeoutId := None; now := 0 |}.

Inductive Event : Type :=
| Resize (w h : Z)     (* the window takes a new size and fires 'resize' *)
| Elapse (ms : N).     (* time passes without further events *)

(** [handleResize]: cancel the pending timer and arm a new one for 100 ms. *)
Definition handleResize (t : Tracker) : Tracker :=
  {| stateWidth := stateWidth t; stateHeight := stateHeight t;
     innerWidth := innerWidth t; innerHeight := innerHeight t;
     timeoutId := Some (now t + 100)%Z; now := now t |}.

(** The timer callback: [setWidth(window.innerWidth); setHeight(window.innerHeight)]. *)
Definition fire (t : Tracker) : Tracker :=
  {| stateWidth := innerWidth t; stateHeight := innerHeight t;
     innerWidth := innerWidth t; innerHeight := innerHeight t;
     timeoutId := None; now := now t |}.

Definition step (t : Tracker) (e : Event) : Tracker :=
  match e with
  | Resize w h =>
      handleResize
        {| stateWidth := stateWidth t; stateHeight := stateHeight t;
           innerWidth := w; innerHeight := h;
           timeoutId := timeoutId t; now := now t |}
  | Elapse ms =>
      let t' := {| stateWidth := stateWidth t; stateHeight := stateHeight t;
                   innerWidth := innerWidth t; innerHeight := innerHeight t;
                   timeoutId := timeoutId t; now := (now t + Z.of_N ms)%Z |} in
      match timeoutId t with
      | Some due => if (due <=? now t')%Z then fire t' else t'
      | None => t'
      end
  end.

Definition run (es : list Event) (t : Tracker) : Tracker := fold_left step es t.

Definition current (t : Tracker) : UseResponsiveReturn :=
  useResponsive (stateWidth t) (stateHeight t).

(** The effect's cleanup on unmount:
    [clearTimeout(timeoutId); window.removeEventListener('resize', handleResize)]. *)
Definition cleanup (t : Tracker) : Tracker :=
  {| stateWidth := stateWidth t; stateHeight := stateHeight t;
     innerWidth := innerWidth t; innerHeight := innerHeight t;
     timeoutId := None; now := now t |}.

End Responsive.

(** ** The animation actions of the graphics library

    [THREE.AnimationAction] is an external collaborator; the record keeps
    the fields its methods [reset], [stop], [play], [fadeIn] and [setLoop]
    write, following the library's documented behaviour. *)

Module THREE.

Inductive LoopMode : Type := LoopOnce | LoopRepeat | LoopPingPong.

Inductive Repetitions : Type :=
| Infinity
| Times (n : nat).

Record AnimationAction : Type := {
  isScheduled : bool;          (* activated in the mixer by [play], removed by [stop] *)
  enabled : bool;
  paused : bool;
  time : Q;
  loop : LoopMode;
  repetitions : Repetitions;
  fading : option Q            (* duration in seconds of a scheduled fade-in *)
}.

(** [reset()]: un-pause, enable, rewind, and drop any scheduled fading. *)
Definition reset (a : AnimationAction) : AnimationAction :=
  {| isScheduled := isScheduled a; enabled := true; paused := false; time := 0;
     loop := loop a; repetitions := repetitions a; fading := None |}.

(** [stop()]: deactivate the action in the mixer, then [reset()]. *)
Definition stop (a : AnimationAction) : AnimationAction :=
  reset {| isScheduled := false; enabled := enabled a; paused := paused a; time := time a;
           loop := loop a; repetitions := repetitions a; fading := fading a |}.

(** [play()]: activate the action in the mixer. *)
Definition play (a : AnimationAction) : AnimationAction :=
  {| isScheduled := true; enabled := enabled a; paused := paused a; time := time a;
     loop := loop a; repetitions := repetitions a; fading := fading a |}.

(** [fadeIn(duration)] *)
Definition fadeIn (d : Q) (a : AnimationAction) : AnimationAction :=
  {| isScheduled := isScheduled a; enabled := enabled a; paused := paused a; time := time a;
     loop := loop a; repetitions := repetitions a; fading := Some d |}.

(** [setLoop(mode, repetitions)] *)
Definition setLoop (m : LoopMode) (n : Repetitions) (a : AnimationAction) : AnimationAction :=
  {| isScheduled := isScheduled a; enabled := enabled a; paused := paused a; time := time a;
     loop := m; repetitions := n; fading := fading a |}.

(** [isRunning()], for an action whose time scale and start time are the
    constructor's (the playback controller writes neither). *)
Definition isRunning (a : AnimationAction) : bool :=
  enabled a && negb (paused a) && isScheduled a.

End THREE.

(** ** [src/hooks/useBearModel.ts] *)

Module UseBearModel.
Local Open Scope string_scope.

Inductive LogEntry : Type :=
| warn (msg : string).

(** The [actions] object of [useAnimations], keyed by clip name, and the
    console the hook writes to. *)
Record Controller : Type := {
  actions : gmap string THREE.AnimationAction;
  console : list LogEntry
}.

(** [Object.entries(actions).forEach(([actionName, otherAction]) => {
      if (otherAction && actionName !== name) otherAction.stop(); })] *)
Definition stopOthers (name : string) (acts : gmap string THREE.AnimationAction)
  : gmap string THREE.AnimationAction :=
  map_fold
    (fun actionName otherAction acc =>
       if decide (actionName ≠ name) then <[actionName := THREE.stop otherAction]> acc
       else acc)
    acts acts.

Definition notFoundMessage (name : string) : string :=
  "Animation " ++ Js.dquote ++ name ++ Js.dquote ++ " not found in model".

(** [action.reset().fadeIn(0.5).play(); action.setLoop(THREE.LoopRepeat, Infinity);] *)
Definition restarted (action : THREE.AnimationAction) : THREE.AnimationAction :=
  THREE.setLoop THREE.LoopRepeat THREE.Infinity
    (THREE.play (THREE.fadeIn 0.5 (THREE.reset action))).

(** One call of [playAnimation]: the controller it leaves behind and how the
    call completes.  [actions] is a plain object, so [actions[name]] is read
    with [Js.member]:
    - [undefined]: the guard [!actions[name]] warns and returns;
    - an own action: the others are stopped and it is restarted;
    - a member inherited from [Object.prototype]: the value is truthy, both
      guards pass, the [forEach] stops every action (no own key equals
      [name]), and [action.reset()] then throws, [reset] not being a method
      of that value. *)
Definition playAnimationRun (name : string) (c : Controller)
  : Controller * Js.Completion unit :=
  match Js.member (actions c !! name) name with
  | Js.Missing =>
      ({| actions := actions c;
          console := console c ++ [warn (notFoundMessage name)] |},
       Js.Normal tt)
  | Js.Own action =>
      ({| actions := <[name := restarted action]> (stopOthers name (actions c));
          console := console c |},
       Js.Normal tt)
  | Js.Inherited =>
      ({| actions := stopOthers name (actions c); console := console c |},
       Js.Throw (Js.TypeError "action.reset is not a function"))
  end.

(** The call as its caller sees it: the new controller on a normal
    completion, the exception otherwise. *)
Definition playAnimation (name : string) (c : Controller) : Js.Completion Controller :=
  match playAnimationRun name c with
  | (c', Js.Normal _) => Js.Normal c'
  | (_, Js.Throw e) => Js.Throw e
  end.

(** [Object.values(actions).forEach(action => { action?.stop(); })] *)
Definition stopAllAnimations (c : Controller) : Controller :=
  {| actions := THREE.stop <$> actions c; console := console c |}.

(** A sequence of [playAnimation] calls, stopping at the first exception. *)
Fixpoint playAll (names : list string) (c : Controller) : Js.Completion Controller :=
  match names with
  | [] => Js.Normal c
  | n :: names' => Js.bind (playAnimation n c) (playAll names')
  end.

(** The three [useState] cells of the hook. *)
Record LoadState : Type := {
  status : Types.LoadingStatus;
  error : option string;
  progress : Z
}.

(** [useState('loading')], [useState(null)], [useState(0)] *)
Definition initialLoadState : LoadState :=
  {| status := Types.loading; error := None; progress := 0 |}.

(** [if (scene && animations.length > 0) { setStatus('loaded'); setProgress(100); }
     else if (!scene) { setStatus('error'); setError(new Error('Failed to load model')); }]
    where [scene] tells whether [gltf.scene] is present and [clips] is
    [animations.length]. *)
Definition statusEffect (scene : bool) (clips : nat) (s : LoadState) : LoadState :=
  if scene && Nat.ltb 0 clips
  then {| status := Types.loaded; error := error s; progress := 100 |}
  else if negb scene
       then {| status := Types.error; error := Some "Failed to load model";
               progress := progress s |}
       else s.

End UseBearModel.

(** ** [src/components/TapToStart.tsx] *)

Module TapToStart.
Local Open Scope string_scope.

Inductive View : Type :=
| TapPrompt            (* the "TAP TO START" text *)
| LoadingIndicator.    (* the spinner with "Loading 3D Model..." *)

(** [!isLoading ? <tap prompt> : <loading spinner>] *)
Definition render (isLoading : bool) : View :=
  if negb isLoading then TapPrompt else LoadingIndicator.

(** [handleClick]: [if (!isLoading) onStart()] *)
Definition handleClick {S : Type} (isLoading : bool) (onStart : S -> S) (s : S) : S :=
  if negb isLoading then onStart s else s.

(** [onKeyDown]: [if (!isLoading && (e.key === 'Enter' || e.key === ' ')) onStart()] *)
Definition onKeyDown {S : Type} (isLoading : bool) (key : string) (onStart : S -> S) (s : S) : S :=
  if negb isLoading && (String.eqb key "Enter" || String.eqb key " ") then onStart s else s.

(** [tabIndex={!isLoading ? 0 : -1}] *)
Definition tabIndex (isLoading : bool) : Z :=
  if negb isLoading then 0%Z else (-1)%Z.

(** [aria-label={isLoading ? 'Loading 3D model' : 'Tap to start animation'}] *)
Definition ariaLabel (isLoading : bool) : string :=
  if isLoading then "Loading 3D model" else "Tap to start animation".

End TapToStart.

(** ** [src/components/ErrorBoundary.tsx] *)

Module ErrorBoundary.

Record Error : Type := { message : string }.

Record State : Type := {
  hasError : bool;
  error : option Error
}.

(** The constructor's [this.state]. *)
Definition initialState : State := {| hasError := false; error := None |}.

Definition getDerivedStateFromError (e : Error) : State :=
  {| hasError := true; error := Some e |}.

(** A [ReactNode]: one of the primitive values, or an element. *)
Inductive ReactNode (Node : Type) : Type :=
| NodeNull
| NodeUndefined
| NodeBool (b : bool)
| NodeNumber (x : Js.number)
| NodeText (s : string)
| NodeElement (n : Node).
Arguments NodeNull {Node}.
Arguments NodeUndefined {Node}.
Arguments NodeBool {Node} b.
Arguments NodeNumber {Node} x.
Arguments NodeText {Node} s.
Arguments NodeElement {Node} n.

(** [ToBoolean] on a node: [null], [undefined], [false], [0], [NaN] and the
    empty string are falsy. *)
Definition truthy {Node : Type} (n : ReactNode Node) : bool :=
  match n with
  | NodeNull | NodeUndefined => false
  | NodeBool b => b
  | NodeNumber x => Js.truthy x
  | NodeText s => negb (String.eqb s "")
  | NodeElement _ => true
  end.

(** The [fallback] prop: absent, a node, or a function of the error. *)
Inductive Fallback (Node : Type) : Type :=
| NoFallback
| FallbackNode (n : ReactNode Node)
| FallbackFn (f : Error -> ReactNode Node).
Arguments NoFallback {Node}.
Arguments FallbackNode {Node} n.
Arguments FallbackFn {Node} f.

(** What [render()] returns: [this.props.children] or a replacement node. *)
Inductive Output (Node : Type) : Type :=
| Children
| Markup (n : ReactNode Node).
Arguments Children {Node}.
Arguments Markup {Node} n.

(** [if (this.state.hasError && this.state.error) {
       if (typeof this.props.fallback === 'function') return this.props.fallback(error);
       if (this.props.fallback) return this.props.fallback;
       return <default error UI>; }
     return this.props.children;] *)
Definition render {Node : Type} (fallback : Fallback Node) (defaultUI : Error -> Node)
    (s : State) : Output Node :=
  match hasError s, error s with
  | true, Some e =>
      match fallback with
      | FallbackFn f => Markup (f e)
      | FallbackNode n =>
          if truthy n then Markup n else Markup (NodeElement (defaultUI e))
      | NoFallback => Markup (NodeElement (defaultUI e))
      end
  | _, _ => Children
  end.

End ErrorBoundary.

(** ** [src/components/AnimationCarousel.tsx] *)

Module AnimationCarousel.
Import Types.
Local Open Scope string_scope.

Record Props : Type := {
  animations : list Animation;
  selectedIndex : nat;
  deviceType : DeviceType
}.

(** [selectedIndex > 0] *)
Definition hasPrev (p : Props) : bool := Nat.ltb 0 (selectedIndex p).

(** [selectedIndex < animations.length - 1] *)
Definition hasNext (p : Props) : bool :=
  (Z.of_nat (selectedIndex p) <? Z.of_nat (length (animations p)) - 1)%Z.

Definition handlePrev {S : Type} (p : Props) (onAnimationSelect : nat -> S -> S) (s : S) : S :=
  if hasPrev p then onAnimationSelect (selectedIndex p - 1) s else s.

Definition handleNext {S : Type} (p : Props) (onAnimationSelect : nat -> S -> S) (s : S) : S :=
  if hasNext p then onAnimationSelect (selectedIndex p + 1) s else s.

Definition handleKeyDown {S : Type} (p : Props) (key : string)
    (onAnimationSelect : nat -> S -> S) (s : S) : S :=
  if String.eqb key "ArrowLeft" then handlePrev p onAnimationSelect s
  else if String.eqb key "ArrowRight" then handleNext p onAnimationSelect s
  else s.

(** [currentAnimation?.displayName || 'Loading...'] *)
Definition label (p : Props) : string :=
  match animations p !! selectedIndex p with
  | Some currentAnimation =>
      if String.eqb (displayName currentAnimation) "" then "Loading..."
      else displayName currentAnimation
  | None => "Loading..."
  end.

(** [{selectedIndex + 1} / {animations.length}] *)
Definition counter (p : Props) : Z * Z :=
  ((Z.of_nat (selectedIndex p) + 1)%Z, Z.of_nat (length (animations p))).

(** [disabled={!hasPrev}], [disabled={!hasNext}] *)
Definition prevDisabled (p : Props) : bool := negb (hasPrev p).
Definition nextDisabled (p : Props) : bool := negb (hasNext p).

End AnimationCarousel.

(** ** [src/components/BearModel.tsx] *)

Module BearModel.
Import Types.

Record Props : Type := {
  animation : string;
  scale : Q;
  positionY : Q;
  targetFPS : Z;
  performanceTier : PerformanceTier
}.

(** [useEffect(() => { if (status === 'loaded') playAnimation(animation); }, ...)] *)
Definition playEffect (status : LoadingStatus) (p : Props) (c : UseBearModel.Controller)
  : Js.Completion UseBearModel.Controller :=
  match status with
  | loaded => UseBearModel.playAnimation (animation p) c
  | _ => Js.Normal c
  end.

(** [Math.min(delta, 0.1)] *)
Definition cappedDelta (delta : Q) : Q := Qmin delta 0.1.


(** [if (status !== 'loaded' || !model) return null;] *)
Definition rendersModel (st : UseBearModel.LoadState) (model : bool) : bool :=
  match UseBearModel.status st with
  | loaded => model
  | _ => false
  end.

End BearModel.

(** ** The props [App] hands to the background effect and to the canvas *)

Module Prism.

(** The props object of the [<Prism>] element; [bloom] and [saturation]
    are [None] when the element does not mention them. *)
Record Props : Type := {
  animationType : string;
  timeScale : Q;
  height : Q;
  baseWidth : Q;
  scale : Q;
  hueShift : Q;
  colorFrequency : Q;
  noise : Q;
  glow : Q;
  offsetY : Q;
  bloom : option Q;
  saturation : option Q
}.

End Prism.

Module Canvas.

Record Props : Type := {
  dpr : Q;
  antialias : bool;
  powerPreference : string
}.

End Canvas.

(** ** [src/App.tsx] *)

Module App.
Import Types.
Local Open Scope string_scope.
Local Open Scope Q_scope.

Record State : Type := {
  selectedIndex : nat;
  isModelLoading : bool;
  hasStarted : bool
}.

(** [useState(0)], [useState(true)], [useState(false)] *)
Definition initialState : State :=
  {| selectedIndex := 0; isModelLoading := true; hasStarted := false |}.

Definition setSelectedIndex (i : nat) (s : State) : State :=
  {| selectedIndex := i; isModelLoading := isModelLoading s; hasStarted := hasStarted s |}.

Definition setIsModelLoading (b : bool) (s : State) : State :=
  {| selectedIndex := selectedIndex s; isModelLoading := b; hasStarted := hasStarted s |}.

Definition setHasStarted (b : bool) (s : State) : State :=
  {| selectedIndex := selectedIndex s; isModelLoading := isModelLoading s; hasStarted := b |}.

Definition handleAnimationSelect (index : nat) (s : State) : State :=
  setSelectedIndex index s.

(** [deviceType === 'mobile' ? 0.28 : deviceType === 'tablet' ? 0.32 : 0.4] *)
Definition bearScale (deviceType : DeviceType) : Q :=
  match deviceType with mobile => 0.28 | tablet => 0.32 | desktop => 0.4 end.

Definition bearYPosition (deviceType : DeviceType) : Q :=
  match deviceType with mobile => -1.5 | tablet => -1.8 | desktop => -2 end.

Definition prismBaseWidth (deviceType : DeviceType) : Q :=
  match deviceType with mobile => 3.5 | tablet => 4.5 | desktop => 5.5 end.

Definition prismScale (deviceType : DeviceType) : Q :=
  match deviceType with mobile => 2.2 | tablet => 2.8 | desktop => 3.6 end.

(** The [<Prism ... />] element of the returned markup.  It is built where
    [currentAnimation] is in scope; every prop is a literal or one of the two
    device presets. *)
Definition prismProps (deviceType : DeviceType) (currentAnimation : Animation) : Prism.Props :=
  {| Prism.animationType := "rotate";
     Prism.timeScale := 0.5;
     Prism.height := 3.5;
     Prism.baseWidth := prismBaseWidth deviceType;
     Prism.scale := prismScale deviceType;
     Prism.hueShift := 0;
     Prism.colorFrequency := 1;
     Prism.noise := 0;
     Prism.glow := 1;
     Prism.offsetY := -50;
     Prism.bloom := None;
     Prism.saturation := None |}.

Definition canvasProps (deviceType : DeviceType) (tier : PerformanceTier) : Canvas.Props :=
  {| Canvas.dpr := match deviceType with
                   | mobile => 1
                   | _ => match tier with high => 1.5 | _ => 1 end
                   end;
     Canvas.antialias := bool_decide (tier = high);
     Canvas.powerPreference := match deviceType with
                               | mobile => "low-power"
                               | _ => "high-performance"
                               end |}.

Definition bearModelProps (deviceType : DeviceType) (perf : DevicePerformance.State)
    (currentAnimation : Animation) : BearModel.Props :=
  {| BearModel.animation := name currentAnimation;
     BearModel.scale := bearScale deviceType;
     BearModel.positionY := bearYPosition deviceType;
     BearModel.targetFPS := DevicePerformance.targetFPS perf;
     BearModel.performanceTier := DevicePerformance.tier perf |}.

Definition carouselProps (deviceType : DeviceType) (s : State) : AnimationCarousel.Props :=
  {| AnimationCarousel.animations := AnimationConfig.ANIMATIONS;
     AnimationCarousel.selectedIndex := selectedIndex s;
     AnimationCarousel.deviceType := deviceType |}.

(** *** The element tree *)

Local Unset Elimination Schemes.

Inductive Leaf : Type :=
| MinWidthWarning
| PrismBackground (p : Prism.Props)
| BearCanvas (c : Canvas.Props) (m : BearModel.Props)
| TapToStartOverlay (isLoading : bool)
| Carousel (p : AnimationCarousel.Props).

(** What ends up on screen. *)
Inductive Dom : Type :=
| Shown (l : Leaf)
| ErrorMessage (heading : string) (detail : option string)
| DomDiv (className : string) (children : list Dom)
| Text (s : string)
| NumberText (x : Js.number)
| Nothing.

(** How a node appears: [null], [undefined] and booleans leave nothing,
    strings and numbers become text. *)
Definition show (n : ErrorBoundary.ReactNode Dom) : Dom :=
  match n with
  | ErrorBoundary.NodeElement d => d
  | ErrorBoundary.NodeText s => Text s
  | ErrorBoundary.NodeNumber x => NumberText x
  | ErrorBoundary.NodeNull | ErrorBoundary.NodeUndefined | ErrorBoundary.NodeBool _ => Nothing
  end.

Inductive Element : Type :=
| Host (l : Leaf)
| Div (className : string) (children : list Element)
| Boundary (st : ErrorBoundary.State) (fallback : ErrorBoundary.Fallback Dom) (child : Element).

Local Set Elimination Schemes.

(** The default error UI of [ErrorBoundary.render]; the message paragraph
    is present when [error.message] is a non-empty string. *)
Definition defaultErrorUI (e : ErrorBoundary.Error) : Dom :=
  ErrorMessage "Unable to Load 3D Bear"
    (if String.eqb (ErrorBoundary.message e) "" then None else Some (ErrorBoundary.message e)).

(** The nesting of the returned markup: the root [div] holds the optional
    width warning, the background layer, the 3D layer and the carousel. *)
Definition layout {N : Type} (div : string -> list N -> N)
    (warning : list N) (background : N) (content : list N) (carousel : N) : N :=
  div "relative w-screen h-screen overflow-hidden"
    (warning
     ++ [ div "absolute inset-0" [background];
          div "absolute inset-0 pointer-events-none" content;
          carousel ])%list.

Definition warningLeaves (r : Responsive.UseResponsiveReturn) : list Leaf :=
  if Responsive.isBelowMinWidth r then [MinWidthWarning] else [].

(** [{!hasStarted && <TapToStart ... isLoading={isModelLoading} />}] *)
Definition overlayLeaves (s : State) : list Leaf :=
  if negb (hasStarted s) then [TapToStartOverlay (isModelLoading s)] else [].

(** The markup [App] returns.  Reading [currentAnimation.name] throws when
    [ANIMATIONS[selectedIndex]] is [undefined]. *)
Definition render (r : Responsive.UseResponsiveReturn) (perf : DevicePerformance.State)
    (boundary : ErrorBoundary.State) (s : State) : Js.Completion Element :=
  let deviceType := Responsive.deviceType r in
  Js.bind (Js.deref (AnimationConfig.ANIMATIONS !! selectedIndex s)) (fun currentAnimation =>
    Js.Normal
      (layout Div
         (map Host (warningLeaves r))
         (Host (PrismBackground (prismProps deviceType currentAnimation)))
         (Boundary boundary ErrorBoundary.NoFallback
            (Host (BearCanvas (canvasProps deviceType (DevicePerformance.tier perf))
                              (bearModelProps deviceType perf currentAnimation)))
          :: map Host (overlayLeaves s))
         (Host (Carousel (carouselProps deviceType s))))).

(** The leaves of an element tree, left to right. *)
Fixpoint leaves (e : Element) : list Leaf :=
  match e with
  | Host l => [l]
  | Div _ children =>
      (fix leavesAll (cs : list Element) : list Leaf :=
         match cs with
         | [] => []
         | c :: cs' => (leaves c ++ leavesAll cs')%list
         end) children
  | Boundary _ _ child => leaves child
  end.

(** The props of the [<Prism>] elements in a tree. *)
Definition backgrounds (e : Element) : list Prism.Props :=
  flat_map (fun l => match l with PrismBackground p => [p] | _ => [] end) (leaves e).

(** *** Rendering with exceptions

    An exception thrown while a subtree renders unwinds to the nearest
    enclosing error boundary; the boundary takes the state
    [getDerivedStateFromError(error)] and renders again.  An exception that
    no boundary handles unmounts the whole tree. *)
Section Mount.
Variable raises : Leaf -> option ErrorBoundary.Error.

Fixpoint mount (e : Element) : ErrorBoundary.Error + Dom :=
  match e with
  | Host l =>
      match raises l with
      | Some err => inl err
      | None => inr (Shown l)
      end
  | Div cls children =>
      let mountAll :=
        fix mountAll (cs : list Element) : ErrorBoundary.Error + list Dom :=
          match cs with
          | [] => inr []
          | c :: cs' =>
              match mount c with
              | inl err => inl err
              | inr d =>
                  match mountAll cs' with
                  | inl err => inl err
                  | inr ds => inr (d :: ds)
                  end
              end
          end in
      match mountAll children with
      | inl err => inl err
      | inr ds => inr (DomDiv cls ds)
      end
  | Boundary st fallback child =>
      match ErrorBoundary.render fallback defaultErrorUI st with
      | ErrorBoundary.Markup n => inr (show n)
      | ErrorBoundary.Children =>
          match mount child with
          | inr d => inr d
          | inl err =>
              match ErrorBoundary.render fallback defaultErrorUI
                      (ErrorBoundary.getDerivedStateFromError err) with
              | ErrorBoundary.Markup n => inr (show n)
              | ErrorBoundary.Children => inl err
              end
          end
      end
  end.

(** The screen: [None] is the blank page left by an unhandled exception. *)
Definition screen (e : Js.Completion Element) : option Dom :=
  match e with
  | Js.Throw _ => None
  | Js.Normal el =>
      match mount el with
      | inl _ => None
      | inr d => Some d
      end
  end.
End Mount.

(** *** Events reaching [App] through its children's callbacks *)

Inductive Event : Type :=
| OverlayClick
| OverlayKeyDown (key : string)
| LoadComplete
| LoadError
| CarouselPrev
| CarouselNext
| CarouselKeyDown (key : string).

(** The overlay and its handlers exist only while [!hasStarted]. *)
Definition step (deviceType : DeviceType) (s : State) (e : Event) : State :=
  match e with
  | OverlayClick =>
      if hasStarted s then s
      else TapToStart.handleClick (isModelLoading s) (setHasStarted true) s
  | OverlayKeyDown key =>
      if hasStarted s then s
      else TapToStart.onKeyDown (isModelLoading s) key (setHasStarted true) s
  | LoadComplete => setIsModelLoading false s
  | LoadError => setIsModelLoading false s
  | CarouselPrev =>
      AnimationCarousel.handlePrev (carouselProps deviceType s) handleAnimationSelect s
  | CarouselNext =>
      AnimationCarousel.handleNext (carouselProps deviceType s) handleAnimationSelect s
  | CarouselKeyDown key =>
      AnimationCarousel.handleKeyDown (carouselProps deviceType s) key handleAnimationSelect s
  end.

Definition run (deviceType : DeviceType) (es : list Event) (s : State) : State :=
  fold_left (step deviceType) es s.

(** Whether the overlay is on screen, and in which sub-state. *)
Definition overlay (s : State) : option TapToStart.View :=
  if negb (hasStarted s) then Some (TapToStart.render (isModelLoading s)) else None.

(** A tap on the overlay: a click, or [Enter] / space on the keyboard. *)
Definition isTap (e : Event) : bool :=
  match e with
  | OverlayClick => true
  | OverlayKeyDown key => String.eqb key "Enter" || String.eqb key " "
  | _ => false
  end.




End App.

(** * Properties *)

(** ** Viewport tracking *)

Section ResponsiveFacts.
Import Types Responsive.

Lemma deviceType_useResponsive (w h : Z) :
  deviceType (useResponsive w h) = deviceTypeOf w.
Proof. reflexivity. Qed.

Lemma deviceTypeOf_mobile (w : Z) : (w < 768)%Z -> deviceTypeOf w = mobile.
Proof.
  intros Hw. unfold deviceTypeOf, BREAKPOINTS.mobile.
  destruct (Z.ltb_spec w 768); [reflexivity | lia].
Qed.

Lemma deviceTypeOf_tablet (w : Z) : (768 <= w < 1024)%Z -> deviceTypeOf w = tablet.
Proof.
  intros Hw. unfold deviceTypeOf, BREAKPOINTS.mobile, BREAKPOINTS.tablet.
  destruct (Z.ltb_spec w 768); [lia |].
  destruct (Z.ltb_spec w 1024); [reflexivity | lia].
Qed.

Lemma deviceTypeOf_desktop (w : Z) : (1024 <= w)%Z -> deviceTypeOf w = desktop.
Proof.
  intros Hw. unfold deviceTypeOf, BREAKPOINTS.mobile, BREAKPOINTS.tablet.
  destruct (Z.ltb_spec w 768); [lia |].
  destruct (Z.ltb_spec w 1024); [lia | reflexivity].
Qed.

(** A pending timer does not fire before its 100 ms have passed. *)
Lemma resize_then_wait_short (t : Tracker) (w h : Z) (ms : N) :
  (ms < 100)%N ->
  stateWidth (run [Resize w h; Elapse ms] t) = stateWidth t
  /\ stateHeight (run [Resize w h; Elapse ms] t) = stateHeight t.
Proof.
  intros Hms. cbn [run fold_left step handleResize timeoutId now].
  destruct (Z.leb_spec (now t + 100) (now t + Z.of_N ms)); [lia |].
  split; reflexivity.
Qed.

(** Once 100 ms pass without another resize, the state takes the window's size. *)
Lemma resize_then_wait_long (t : Tracker) (w h : Z) (ms : N) :
  (100 <= ms)%N ->
  stateWidth (run [Resize w h; Elapse ms] t) = w
  /\ stateHeight (run [Resize w h; Elapse ms] t) = h.
Proof.
  intros Hms. cbn [run fold_left step handleResize timeoutId now].
  destruct (Z.leb_spec (now t + 100) (now t + Z.of_N ms)); [| lia].
  split; reflexivity.
Qed.

(** A burst of resizes coalesces: only the last size is ever committed. *)
Lemma resize_burst_coalesces (t : Tracker) (w1 h1 w2 h2 : Z) (gap : N) :
  (gap < 100)%N ->
  stateWidth (run [Resize w1 h1; Elapse gap; Resize w2 h2; Elapse 100] t) = w2.
Proof.
  intros Hgap. cbn [run fold_left step handleResize timeoutId now].
  destruct (Z.leb_spec (now t + 100) (now t + Z.of_N gap)); [lia |].
  cbn [timeoutId now handleResize].
  destruct (Z.leb_spec (now t + Z.of_N gap + 100) (now t + Z.of_N gap + Z.of_N 100));
    [reflexivity | lia].
Qed.

End ResponsiveFacts.

(** C4. The device category depends on the viewport width alone: widths
    below 768 are mobile, widths from 768 up to 1023 are tablet, widths from
    1024 on are desktop, whatever the height; in particular 767 is mobile,
    768 is tablet and 1024 is desktop. *)
Theorem deviceType_step_function_of_width :
  (forall w h h' : Z,
      Responsive.deviceType (Responsive.useResponsive w h)
      = Responsive.deviceType (Responsive.useResponsive w h'))
  /\ (forall w h : Z, (w < 768)%Z ->
        Responsive.deviceType (Responsive.useResponsive w h) = Types.mobile)
  /\ (forall w h : Z, (768 <= w < 1024)%Z ->
        Responsive.deviceType (Responsive.useResponsive w h) = Types.tablet)
  /\ (forall w h : Z, (1024 <= w)%Z ->
        Responsive.deviceType (Responsive.useResponsive w h) = Types.desktop)
  /\ (forall h : Z,
        Responsive.deviceType (Responsive.useResponsive 767 h) = Types.mobile
        /\ Responsive.deviceType (Responsive.useResponsive 768 h) = Types.tablet
        /\ Responsive.deviceType (Responsive.useResponsive 1024 h) = Types.desktop).
Proof.
  split; [intros w h h'; reflexivity |].
  split; [intros w h Hw; rewrite deviceType_useResponsive; apply deviceTypeOf_mobile, Hw |].
  split; [intros w h Hw; rewrite deviceType_useResponsive; apply deviceTypeOf_tablet, Hw |].
  split; [intros w h Hw; rewrite deviceType_useResponsive; apply deviceTypeOf_desktop, Hw |].
  intros h. repeat split.
Qed.

Lemma deviceType_step_function_of_width_witness :
  Responsive.deviceType (Responsive.useResponsive 600 900) = Types.mobile
  /\ Responsive.deviceType (Responsive.useResponsive 800 600) = Types.tablet
  /\ Responsive.deviceType (Responsive.useResponsive 1280 720) = Types.desktop.
Proof.
  destruct deviceType_step_function_of_width as (_ & Hm & Ht & Hd & _).
  split; [apply Hm; lia | split; [apply Ht; lia | apply Hd; lia]].
Defined.

(** C7 (amended). Starting on a 1280 px wide viewport the category is
    desktop; after the window shrinks to 600 px the category is still desktop
    while fewer than 100 ms have passed and is mobile once 100 ms have passed;
    the model's scale then goes from the desktop preset 0.4 to the mobile
    preset 0.28, which is seven tenths of the desktop preset. *)
Theorem resize_1280_to_600_applies_mobile_preset :
  forall (h h' : Z) (ms : N),
    let t0 := Responsive.init 1280 h in
    let t1 := Responsive.run [Responsive.Resize 600 h'; Responsive.Elapse ms] t0 in
    Responsive.deviceType (Responsive.current t0) = Types.desktop
    /\ ((ms < 100)%N -> Responsive.deviceType (Responsive.current t1) = Types.desktop)
    /\ ((100 <= ms)%N -> Responsive.deviceType (Responsive.current t1) = Types.mobile)
    /\ App.bearScale Types.desktop = 0.4%Q
    /\ App.bearScale Types.mobile = 0.28%Q
    /\ (App.bearScale Types.mobile == 0.7 * App.bearScale Types.desktop)%Q.
Proof.
  intros h h' ms t0 t1.
  split; [reflexivity |].
  split.
  { intros Hms. unfold Responsive.current. subst t1.
    destruct (resize_then_wait_short t0 600 h' ms Hms) as [Hw _].
    rewrite deviceType_useResponsive, Hw. reflexivity. }
  split.
  { intros Hms. unfold Responsive.current. subst t1.
    destruct (resize_then_wait_long t0 600 h' ms Hms) as [Hw _].
    rewrite deviceType_useResponsive, Hw. reflexivity. }
  repeat split.
Qed.

Lemma resize_1280_to_600_applies_mobile_preset_witness :
  Responsive.deviceType
    (Responsive.current
       (Responsive.run [Responsive.Resize 600 800; Responsive.Elapse 100]
          (Responsive.init 1280 720))) = Types.mobile
  /\ Responsive.deviceType
       (Responsive.current
          (Responsive.run [Responsive.Resize 600 800; Responsive.Elapse 40]
             (Responsive.init 1280 720))) = Types.desktop.
Proof.
  split.
  - destruct (resize_1280_to_600_applies_mobile_preset 720 800 100) as (_ & _ & H & _).
    apply H. lia.
  - destruct (resize_1280_to_600_applies_mobile_preset 720 800 40) as (_ & H & _).
    apply H. lia.
Defined.

(** C7 as stated fails: after the resize from 1280 px to 600 px the
    category does flip from desktop to mobile, but the scale in use is not
    half of the desktop scale. *)
Lemma resize_1280_to_600_does_not_halve_scale :
  let t0 := Responsive.init 1280 720 in
  let t1 := Responsive.run [Responsive.Resize 600 720; Responsive.Elapse 100] t0 in
  ~ (Responsive.deviceType (Responsive.current t0) = Types.desktop
     /\ Responsive.deviceType (Responsive.current t1) = Types.mobile
     /\ (App.bearScale (Responsive.deviceType (Responsive.current t1))
         == App.bearScale (Responsive.deviceType (Responsive.current t0)) / 2)%Q).
Proof.
  intros t0 t1 (_ & _ & H). vm_compute in H. discriminate H.
Qed.

(** ** Device capability detection *)

Section DevicePerformanceFacts.
Import Types DevicePerformance.

Lemma mobileCap_le (t : PerformanceTier) : (rank (mobileCap t) <= rank t)%Z.
Proof. destruct t; vm_compute; discriminate. Qed.

Lemma lowMemoryCap_le (t : PerformanceTier) : (rank (lowMemoryCap t) <= rank t)%Z.
Proof. destruct t; vm_compute; discriminate. Qed.

Lemma tierActions_app (l1 l2 : list Dispatch) :
  tierActions (l1 ++ l2) = tierActions l1 ++ tierActions l2.
Proof. apply flat_map_app. Qed.

(** The renderer probe only ever sets the tier to a constant. *)
Lemma gpuProbe_sets_values (b : Browser) (f : PerformanceTier -> PerformanceTier) :
  ~ In (SetUpdater f) (tierActions (gpuProbe b)).
Proof.
  unfold gpuProbe, classify.
  destruct (getContext b) as [gl |]; [| intros []].
  destruct (debugRendererInfo gl) as [renderer |]; [| intros []].
  repeat match goal with |- context [if ?c then _ else _] => destruct c end;
    cbn; intros H; repeat (destruct H as [H | H]; [discriminate H |]); exact H.
Qed.

Lemma downgrades_are_caps (b : Browser) (a : SetStateAction PerformanceTier) :
  In a (tierActions (downgrades b)) ->
  a = SetUpdater mobileCap \/ a = SetUpdater lowMemoryCap.
Proof.
  unfold downgrades.
  destruct (isMobileUserAgent (userAgent b)), (isLowMemory (deviceMemory b));
    cbn; intuition auto.
Qed.

Lemma effect_updaters_are_caps (b : Browser) (f : PerformanceTier -> PerformanceTier) :
  In (SetUpdater f) (tierActions (effect b)) -> f = mobileCap \/ f = lowMemoryCap.
Proof.
  unfold effect. destruct (webglUnavailable b).
  - cbn. intros [H | []]. discriminate H.
  - rewrite tierActions_app, in_app_iff. intros [H | H].
    + exfalso. exact (gpuProbe_sets_values b f H).
    + destruct (downgrades_are_caps b _ H) as [E | E]; inversion E; auto.
Qed.

Lemma session_updaters_are_caps (b : Browser) (overrides : list PerformanceTier)
    (f : PerformanceTier -> PerformanceTier) :
  In (SetUpdater f) (session b overrides) -> f = mobileCap \/ f = lowMemoryCap.
Proof.
  unfold session. rewrite in_app_iff. intros [H | H].
  - exact (effect_updaters_are_caps b f H).
  - apply in_map_iff in H. destruct H as (v & Hv & _). discriminate Hv.
Qed.

Lemma tier_fold_downgrades (b : Browser) (s : State) :
  (rank (tier (fold_left reduce (downgrades b) s)) <= rank (tier s))%Z.
Proof.
  unfold downgrades.
  destruct (isMobileUserAgent (userAgent b)), (isLowMemory (deviceMemory b)); cbn.
  - pose proof (lowMemoryCap_le (mobileCap (tier s))).
    pose proof (mobileCap_le (tier s)). lia.
  - apply mobileCap_le.
  - apply lowMemoryCap_le.
  - lia.
Qed.

Lemma mounted_unavailable (b : Browser) :
  webglUnavailable b = true ->
  mounted b = {| tier := low; gpuInfo := EmptyString; supportsWebGL := false |}.
Proof. intros H. unfold mounted, effect. rewrite H. reflexivity. Qed.

Lemma mounted_le_probed (b : Browser) :
  (rank (tier (mounted b)) <= rank (tier (probed b)))%Z.
Proof.
  destruct (webglUnavailable b) eqn:Hgl.
  - rewrite (mounted_unavailable b Hgl). cbn. destruct (tier (probed b)); cbn; lia.
  - unfold mounted, probed, effect. rewrite Hgl, fold_left_app.
    apply tier_fold_downgrades.
Qed.

Lemma isLowMemory_below_4 (q : Q) :
  (0 < q)%Q -> (q < 4)%Q -> isLowMemory (Some (Js.Finite q)) = true.
Proof.
  intros H0 H4. cbn.
  destruct (Qeq_bool q 0) eqn:E.
  - apply Qeq_bool_iff in E. rewrite E in H0. exfalso. exact (Qlt_irrefl 0 H0).
  - cbn. destruct (Qle_bool 4 q) eqn:L; [| reflexivity].
    apply Qle_bool_iff in L. exfalso. exact (Qlt_not_le _ _ H4 L).
Qed.

Lemma isLowMemory_from_4 (q : Q) :
  (4 <= q)%Q -> isLowMemory (Some (Js.Finite q)) = false.
Proof.
  intros H4. cbn. apply Qle_bool_iff in H4. rewrite H4. cbn.
  apply andb_false_r.
Qed.

End DevicePerformanceFacts.

(** C5. When the probe finds no usable WebGL context, the effect issues
    exactly [setSupportsWebGL(false)] and [setTier('low')] and nothing else
    (no renderer classification, no mobile cap, no low-memory cap), so the
    detector reports tier low, supportsWebGL false and a target of 18 frames
    per second, whatever the user agent and the device memory are. *)
Theorem no_webgl_reports_low_tier :
  forall b : DevicePerformance.Browser,
    DevicePerformance.webglUnavailable b = true ->
    DevicePerformance.effect b
    = [DevicePerformance.setSupportsWebGL false;
       DevicePerformance.setTier (DevicePerformance.SetValue Types.low)]
    /\ DevicePerformance.tier (DevicePerformance.mounted b) = Types.low
    /\ DevicePerformance.supportsWebGL (DevicePerformance.mounted b) = false
    /\ DevicePerformance.targetFPS (DevicePerformance.mounted b) = 18%Z
    /\ DevicePerformance.gpuInfo (DevicePerformance.mounted b) = EmptyString.
Proof.
  intros b Hgl. rewrite (mounted_unavailable b Hgl).
  unfold DevicePerformance.effect. rewrite Hgl.
  repeat split.
Qed.

Lemma no_webgl_reports_low_tier_witness :
  let b := {| DevicePerformance.webgl := None;
              DevicePerformance.experimental_webgl := None;
              DevicePerformance.userAgent := "Mozilla/5.0 (Linux; Android 10) Mobile Safari";
              DevicePerformance.deviceMemory := Some (Js.Finite 2);
              DevicePerformance.devicePixelRatio := Some (Js.Finite 3) |} in
  DevicePerformance.tier (DevicePerformance.mounted b) = Types.low
  /\ DevicePerformance.supportsWebGL (DevicePerformance.mounted b) = false
  /\ DevicePerformance.targetFPS (DevicePerformance.mounted b) = 18%Z.
Proof.
  intros b.
  destruct (no_webgl_reports_low_tier b) as (_ & Ht & Hs & Hf & _); [reflexivity |].
  split; [exact Ht | split; [exact Hs | exact Hf]].
Defined.

Section SessionOrder.
Import Types DevicePerformance.

Lemma classify_one_value (renderer : string) :
  exists vs : list PerformanceTier,
    tierActions (classify renderer) = map SetValue vs /\ (length vs <= 1)%nat.
Proof.
  unfold classify.
  repeat match goal with |- context [if ?c then _ else _] => destruct c end;
    first [exists [medium]; split; [reflexivity | cbn; lia]
          | exists [high]; split; [reflexivity | cbn; lia]
          | exists []; split; [reflexivity | cbn; lia]].
Qed.

Lemma gpuProbe_one_value (b : Browser) :
  exists vs : list PerformanceTier,
    tierActions (gpuProbe b) = map SetValue vs /\ (length vs <= 1)%nat.
Proof.
  unfold gpuProbe.
  destruct (getContext b) as [gl |]; [| exists []; split; [reflexivity | cbn; lia]].
  destruct (debugRendererInfo gl) as [renderer |];
    [| exists []; split; [reflexivity | cbn; lia]].
  exact (classify_one_value renderer).
Qed.

Lemma downgrades_only_caps (b : Browser) :
  exists cs : list (PerformanceTier -> PerformanceTier),
    tierActions (downgrades b) = map SetUpdater cs
    /\ Forall (fun f => f = mobileCap \/ f = lowMemoryCap) cs.
Proof.
  unfold downgrades.
  destruct (isMobileUserAgent (userAgent b)), (isLowMemory (deviceMemory b)).
  - exists [mobileCap; lowMemoryCap]. split; [reflexivity | repeat constructor; auto].
  - exists [mobileCap]. split; [reflexivity | repeat constructor; auto].
  - exists [lowMemoryCap]. split; [reflexivity | repeat constructor; auto].
  - exists []. split; [reflexivity | constructor].
Qed.

(** The effect writes the tier in a fixed order: at most one constant first,
    then only caps. *)
Lemma effect_values_then_caps (b : Browser) :
  exists (vs : list PerformanceTier) (cs : list (PerformanceTier -> PerformanceTier)),
    tierActions (effect b) = map SetValue vs ++ map SetUpdater cs
    /\ (length vs <= 1)%nat
    /\ Forall (fun f => f = mobileCap \/ f = lowMemoryCap) cs.
Proof.
  unfold effect. destruct (webglUnavailable b).
  - exists [low], []. split; [reflexivity |]. split; [cbn; lia | constructor].
  - destruct (gpuProbe_one_value b) as (vs & Hvs & Hlen).
    destruct (downgrades_only_caps b) as (cs & Hcs & Hcaps).
    exists vs, cs. rewrite tierActions_app, Hvs, Hcs. auto.
Qed.

Lemma value_not_among_updaters (v : PerformanceTier)
    (cs : list (PerformanceTier -> PerformanceTier))
    (pre post : list (SetStateAction PerformanceTier)) :
  map SetUpdater cs <> pre ++ SetValue v :: post.
Proof.
  intros Heq.
  assert (Hin : In (SetValue v) (map SetUpdater cs)).
  { rewrite Heq. apply in_or_app. right. left. reflexivity. }
  apply in_map_iff in Hin. destruct Hin as (f & Hf & _). discriminate Hf.
Qed.

(** A step of a session that raises the tier is either the effect's very
    first write, which then sets the high tier, or one of the consumer's
    overrides. *)
Lemma raising_step_is_first_or_override (b : Browser) (overrides : list PerformanceTier)
    (pre post : list (SetStateAction PerformanceTier)) (a : SetStateAction PerformanceTier) :
  session b overrides = pre ++ a :: post ->
  (rank (runTier pre medium) < rank (applyAction a (runTier pre medium)))%Z ->
  (pre = [] /\ a = SetValue high
   /\ exists rest, tierActions (effect b) = SetValue high :: rest)
  \/ (exists (done todo : list PerformanceTier) (v : PerformanceTier),
         overrides = done ++ v :: todo
         /\ pre = tierActions (effect b) ++ map SetValue done
         /\ a = SetValue v).
Proof.
  intros Hsplit Hup.
  assert (Hoverride : forall l : list (SetStateAction PerformanceTier),
             pre = tierActions (effect b) ++ l ->
             map SetValue overrides = l ++ a :: post ->
             exists (done todo : list PerformanceTier) (v : PerformanceTier),
               overrides = done ++ v :: todo
               /\ pre = tierActions (effect b) ++ map SetValue done
               /\ a = SetValue v).
  { intros l Hpre Hmap. apply map_eq_app in Hmap.
    destruct Hmap as (done & rest & Hov & Hdone & Hrest).
    apply map_eq_cons in Hrest. destruct Hrest as (v & todo & Hrest & Hv & _).
    exists done, todo, v. subst. auto. }
  unfold session in Hsplit. apply app_eq_app in Hsplit.
  destruct Hsplit as (l & [[Hacts Hrest] | [Hpre Hrest]]).
  2: { right. exact (Hoverride l Hpre Hrest). }
  destruct l as [| a' l'].
  { right. apply (Hoverride []).
    - rewrite app_nil_r in Hacts. rewrite app_nil_r. symmetry. exact Hacts.
    - cbn. symmetry. exact Hrest. }
  cbn in Hrest. injection Hrest as <- _.
  destruct a as [v | f].
  2: { exfalso.
       assert (Hin : In (SetUpdater f) (tierActions (effect b))).
       { rewrite Hacts. apply in_or_app. right. left. reflexivity. }
       cbn [applyAction] in Hup.
       destruct (effect_updaters_are_caps b f Hin) as [-> | ->].
       - pose proof (mobileCap_le (runTier pre medium)). lia.
       - pose proof (lowMemoryCap_le (runTier pre medium)). lia. }
  left.
  destruct (effect_values_then_caps b) as (vs & cs & Hshape & Hlen & _).
  rewrite Hshape in Hacts.
  assert (Hpre : pre = []).
  { destruct vs as [| v0 [| v1 vs]]; cbn in Hlen; [| | lia].
    - exfalso. exact (value_not_among_updaters v cs pre l' Hacts).
    - destruct pre as [| p pre]; [reflexivity | exfalso].
      cbn in Hacts. injection Hacts as _ Hacts.
      exact (value_not_among_updaters v cs pre l' Hacts). }
  subst pre. cbn [applyAction runTier fold_left] in Hup.
  assert (Hv : v = high) by (destruct v; cbn in Hup; first [reflexivity | lia]).
  subst v. split; [reflexivity |]. split; [reflexivity |].
  exists l'. rewrite Hshape. exact Hacts.
Qed.

End SessionOrder.

(** C6 as stated fails: on a desktop with an NVIDIA renderer and no override
    call at all, the tier goes up within the session, from the initial medium
    to high, by the detector's own classification. *)
Lemma tier_rises_at_mount_without_override :
  let b := {| DevicePerformance.webgl :=
                Some {| DevicePerformance.hasGetExtension := true;
                        DevicePerformance.debugRendererInfo :=
                          Some "ANGLE (NVIDIA GeForce GTX 1060)"%string |};
              DevicePerformance.experimental_webgl := None;
              DevicePerformance.userAgent := "Mozilla/5.0 (Windows NT 10.0; Win64; x64)";
              DevicePerformance.deviceMemory := Some (Js.Finite 8);
              DevicePerformance.devicePixelRatio := Some (Js.Finite 1) |} in
  DevicePerformance.tier DevicePerformance.initialState = Types.medium
  /\ DevicePerformance.session b [] = [DevicePerformance.SetValue Types.high]
  /\ DevicePerformance.tier (DevicePerformance.mounted b) = Types.high
  /\ ~ (DevicePerformance.rank (DevicePerformance.tier (DevicePerformance.mounted b))
        <= DevicePerformance.rank (DevicePerformance.tier DevicePerformance.initialState))%Z.
Proof.
  intros b. repeat split. vm_compute. intros H. apply H. reflexivity.
Qed.

(** C6 (amended). On the order low < medium < high, the mobile-user-agent
    cap and the low-memory cap (applied when the reported memory is below 4)
    both map high to medium and any other tier to low, so neither raises a
    tier, and the tier the detector ends with is at most the one the renderer
    probe gave.  The effect writes the tier in a fixed order, at most one
    constant first and then only these caps.  So in a whole session (the
    mount effect followed by the consumer's [setTier] calls) a step at which
    the tier goes up is either the effect's very first write, the
    classification setting high in place of the initial medium, or one of the
    consumer's override calls: after the classification the tier never
    increases without an override. *)
Theorem tier_caps_never_raise :
  (forall t : Types.PerformanceTier,
      DevicePerformance.mobileCap t
      = match t with Types.high => Types.medium | _ => Types.low end
      /\ DevicePerformance.lowMemoryCap t
         = match t with Types.high => Types.medium | _ => Types.low end)
  /\ (forall t : Types.PerformanceTier,
        (DevicePerformance.rank (DevicePerformance.mobileCap t) <= DevicePerformance.rank t)%Z
        /\ (DevicePerformance.rank (DevicePerformance.lowMemoryCap t)
            <= DevicePerformance.rank t)%Z)
  /\ (forall q : Q, (0 < q)%Q -> (q < 4)%Q ->
        DevicePerformance.isLowMemory (Some (Js.Finite q)) = true)
  /\ (forall q : Q, (4 <= q)%Q ->
        DevicePerformance.isLowMemory (Some (Js.Finite q)) = false)
  /\ (forall b : DevicePerformance.Browser,
        (DevicePerformance.rank (DevicePerformance.tier (DevicePerformance.mounted b))
         <= DevicePerformance.rank (DevicePerformance.tier (DevicePerformance.probed b)))%Z)
  /\ (forall (b : DevicePerformance.Browser) (overrides : list Types.PerformanceTier)
             (f : Types.PerformanceTier -> Types.PerformanceTier),
        In (DevicePerformance.SetUpdater f) (DevicePerformance.session b overrides) ->
        f = DevicePerformance.mobileCap \/ f = DevicePerformance.lowMemoryCap)
  /\ (forall b : DevicePerformance.Browser,
        exists (vs : list Types.PerformanceTier)
               (cs : list (Types.PerformanceTier -> Types.PerformanceTier)),
          DevicePerformance.tierActions (DevicePerformance.effect b)
          = map DevicePerformance.SetValue vs ++ map DevicePerformance.SetUpdater cs
          /\ (length vs <= 1)%nat
          /\ Forall (fun f => f = DevicePerformance.mobileCap
                              \/ f = DevicePerformance.lowMemoryCap) cs)
  /\ (forall (b : DevicePerformance.Browser) (overrides : list Types.PerformanceTier)
             (pre post : list (DevicePerformance.SetStateAction Types.PerformanceTier))
             (a : DevicePerformance.SetStateAction Types.PerformanceTier),
        DevicePerformance.session b overrides = pre ++ a :: post ->
        let before := DevicePerformance.runTier pre Types.medium in
        (DevicePerformance.rank before
         < DevicePerformance.rank (DevicePerformance.applyAction a before))%Z ->
        (pre = [] /\ a = DevicePerformance.SetValue Types.high
         /\ exists rest,
              DevicePerformance.tierActions (DevicePerformance.effect b)
              = DevicePerformance.SetValue Types.high :: rest)
        \/ (exists (done todo : list Types.PerformanceTier) (v : Types.PerformanceTier),
               overrides = done ++ v :: todo
               /\ pre = DevicePerformance.tierActions (DevicePerformance.effect b)
                        ++ map DevicePerformance.SetValue done
               /\ a = DevicePerformance.SetValue v)).
Proof.
  split; [intros t; destruct t; split; reflexivity |].
  split; [intros t; split; [apply mobileCap_le | apply lowMemoryCap_le] |].
  split; [exact isLowMemory_below_4 |].
  split; [exact isLowMemory_from_4 |].
  split; [exact mounted_le_probed |].
  split; [exact session_updaters_are_caps |].
  split; [exact effect_values_then_caps |].
  intros b overrides pre post a Hsplit before Hup.
  exact (raising_step_is_first_or_override b overrides pre post a Hsplit Hup).
Qed.

Lemma tier_caps_never_raise_witness :
  let b := {| DevicePerformance.webgl :=
                Some {| DevicePerformance.hasGetExtension := true;
                        DevicePerformance.debugRendererInfo :=
                          Some "ANGLE (NVIDIA GeForce GTX 1060)"%string |};
              DevicePerformance.experimental_webgl := None;
              DevicePerformance.userAgent := "Mozilla/5.0 (Linux; Android 10) Mobile Safari";
              DevicePerformance.deviceMemory := Some (Js.Finite 2);
              DevicePerformance.devicePixelRatio := Some (Js.Finite 3) |} in
  DevicePerformance.tier (DevicePerformance.mounted b) = Types.low
  /\ DevicePerformance.isLowMemory (Some (Js.Finite 2)) = true
  /\ exists (done todo : list Types.PerformanceTier) (v : Types.PerformanceTier),
       [Types.medium; Types.high] = done ++ v :: todo
       /\ DevicePerformance.SetValue Types.high = DevicePerformance.SetValue v.
Proof.
  intros b.
  destruct tier_caps_never_raise as (_ & _ & Hlow & _ & _ & _ & _ & Hstep).
  split; [reflexivity |].
  split; [apply Hlow; reflexivity |].
  destruct (Hstep b [Types.medium; Types.high]
              [DevicePerformance.SetValue Types.high;
               DevicePerformance.SetUpdater DevicePerformance.mobileCap;
               DevicePerformance.SetUpdater DevicePerformance.lowMemoryCap;
               DevicePerformance.SetValue Types.medium]
              []
              (DevicePerformance.SetValue Types.high))
    as [(Hpre & _) | (done & todo & v & Hov & _ & Ha)].
  - reflexivity.
  - vm_compute. reflexivity.
  - discriminate Hpre.
  - exists done, todo, v. split; [exact Hov | exact Ha].
Defined.

(** C10. The pixel density the detector exposes never exceeds 2: it is 1
    when [devicePixelRatio] is unavailable, and the smaller of 2 and the
    device's ratio whenever the device reports a usable ratio (any number
    other than zero and NaN). *)
Theorem pixelRatio_at_most_2 :
  (forall b : DevicePerformance.Browser,
      Js.le (DevicePerformance.pixelRatio b) (Js.Finite 2))
  /\ (forall b : DevicePerformance.Browser,
        DevicePerformance.devicePixelRatio b = None ->
        DevicePerformance.pixelRatio b = Js.Finite 1)
  /\ (forall (b : DevicePerformance.Browser) (x : Js.number),
        DevicePerformance.devicePixelRatio b = Some x ->
        Js.truthy x = true ->
        DevicePerformance.pixelRatio b = Js.Math_min (Js.Finite 2) x)
  /\ (forall (b : DevicePerformance.Browser) (q : Q),
        DevicePerformance.devicePixelRatio b = Some (Js.Finite q) ->
        (0 < q)%Q ->
        DevicePerformance.pixelRatio b = Js.Finite (Qmin 2 q)).
Proof.
  assert (Htruthy : forall (b : DevicePerformance.Browser) (x : Js.number),
             DevicePerformance.devicePixelRatio b = Some x -> Js.truthy x = true ->
             DevicePerformance.pixelRatio b = Js.Math_min (Js.Finite 2) x).
  { intros b x Hx Ht. unfold DevicePerformance.pixelRatio, Js.or_else.
    rewrite Hx, Ht. reflexivity. }
  split.
  { intros b. unfold DevicePerformance.pixelRatio, Js.or_else.
    destruct (DevicePerformance.devicePixelRatio b) as [x |].
    - destruct x as [| | | q]; cbn;
        try destruct (negb (Qeq_bool q 0)); cbn;
        first [exact I | apply Qle_refl | apply Q.le_min_l].
    - cbn. apply Q.le_min_l. }
  split.
  { intros b Hb. unfold DevicePerformance.pixelRatio, Js.or_else. rewrite Hb.
    reflexivity. }
  split; [exact Htruthy |].
  intros b q Hb Hq. rewrite (Htruthy b (Js.Finite q) Hb); [reflexivity |].
  cbn. destruct (Qeq_bool q 0) eqn:E; [| reflexivity].
  apply Qeq_bool_iff in E. rewrite E in Hq. exfalso. exact (Qlt_irrefl 0 Hq).
Qed.

Lemma pixelRatio_at_most_2_witness :
  let retina := {| DevicePerformance.webgl := None;
                   DevicePerformance.experimental_webgl := None;
                   DevicePerformance.userAgent := "Mozilla/5.0"%string;
                   DevicePerformance.deviceMemory := None;
                   DevicePerformance.devicePixelRatio := Some (Js.Finite 3) |} in
  let plain := {| DevicePerformance.webgl := None;
                  DevicePerformance.experimental_webgl := None;
                  DevicePerformance.userAgent := "Mozilla/5.0"%string;
                  DevicePerformance.deviceMemory := None;
                  DevicePerformance.devicePixelRatio := None |} in
  DevicePerformance.pixelRatio retina = Js.Finite (Qmin 2 3)
  /\ DevicePerformance.pixelRatio plain = Js.Finite 1.
Proof.
  intros retina plain.
  destruct pixelRatio_at_most_2 as (_ & Hnone & _ & Hpos).
  split.
  - apply Hpos; reflexivity.
  - apply Hnone. reflexivity.
Defined.

(** ** Playback control *)

Section PlaybackFacts.
Import UseBearModel.

Lemma stop_not_scheduled (a : THREE.AnimationAction) :
  THREE.isScheduled (THREE.stop a) = false /\ THREE.isRunning (THREE.stop a) = false.
Proof. split; reflexivity. Qed.

Lemma restarted_running (a : THREE.AnimationAction) :
  THREE.isScheduled (restarted a) = true
  /\ THREE.isRunning (restarted a) = true
  /\ THREE.loop (restarted a) = THREE.LoopRepeat
  /\ THREE.repetitions (restarted a) = THREE.Infinity
  /\ THREE.fading (restarted a) = Some 0.5%Q.
Proof. repeat split. Qed.

(** The [forEach] loop stops every entry but the requested one. *)
Lemma stopOthers_lookup (name : string) (acts : gmap string THREE.AnimationAction)
    (k : string) :
  stopOthers name acts !! k
  = if decide (k = name) then acts !! k else THREE.stop <$> acts !! k.
Proof.
  unfold stopOthers.
  assert (Hgen : forall m : gmap string THREE.AnimationAction,
    forall k : string,
      map_fold
        (fun actionName otherAction acc =>
           if decide (actionName ≠ name)
           then <[actionName := THREE.stop otherAction]> acc else acc) acts m !! k
      = match m !! k with
        | Some a => if decide (k = name) then acts !! k else Some (THREE.stop a)
        | None => acts !! k
        end).
  { intros m.
    apply (map_fold_weak_ind
             (fun (r : gmap string THREE.AnimationAction)
                  (m : gmap string THREE.AnimationAction) =>
                forall k : string,
                  r !! k = match m !! k with
                           | Some a => if decide (k = name) then acts !! k
                                       else Some (THREE.stop a)
                           | None => acts !! k
                           end)); clear m.
    - intros j. rewrite lookup_empty. reflexivity.
    - intros i x m r Hi IH j.
      destruct (decide (j = i)) as [-> | Hji].
      + rewrite lookup_insert_eq.
        destruct (decide (i ≠ name)) as [Hne | Heq].
        * rewrite lookup_insert_eq. destruct (decide (i = name)); [contradiction | reflexivity].
        * rewrite IH, Hi. destruct (decide (i = name)); [reflexivity |].
          exfalso. apply Heq. assumption.
      + rewrite (lookup_insert_ne m i j x) by congruence.
        destruct (decide (i ≠ name)).
        * rewrite lookup_insert_ne by congruence. apply IH.
        * apply IH. }
  rewrite Hgen.
  destruct (acts !! k) as [a |] eqn:Hk; destruct (decide (k = name)); reflexivity.
Qed.

(** A request for a registered name completes normally, restarts that
    action and stops all the others. *)
Lemma playAnimation_known (name : string) (c : Controller) (a : THREE.AnimationAction) :
  actions c !! name = Some a ->
  exists c' : Controller,
    playAnimation name c = Js.Normal c'
    /\ console c' = console c
    /\ forall k : string,
         actions c' !! k
         = if decide (k = name) then Some (restarted a) else THREE.stop <$> actions c !! k.
Proof.
  intros Ha. unfold playAnimation, playAnimationRun, Js.member. rewrite Ha.
  eexists. split; [reflexivity |]. split; [reflexivity |].
  intros k. cbn [actions].
  destruct (decide (k = name)) as [-> | Hk].
  - rewrite lookup_insert_eq. reflexivity.
  - rewrite lookup_insert_ne by congruence.
    rewrite stopOthers_lookup. destruct (decide (k = name)); [contradiction | reflexivity].
Qed.

Lemma playAnimation_known_dom (name : string) (c c' : Controller) :
  is_Some (actions c !! name) ->
  playAnimation name c = Js.Normal c' ->
  console c' = console c
  /\ forall k : string, is_Some (actions c' !! k) <-> is_Some (actions c !! k).
Proof.
  intros [a Ha] Hplay.
  destruct (playAnimation_known name c a Ha) as (c1 & H1 & Hcons & Hlook).
  rewrite H1 in Hplay. injection Hplay as <-.
  split; [exact Hcons |].
  intros k. rewrite Hlook.
  destruct (decide (k = name)) as [-> | Hk].
  - rewrite Ha. split; eauto.
  - rewrite fmap_is_Some. reflexivity.
Qed.

Lemma playAll_app (l1 l2 : list string) (c : Controller) :
  playAll (l1 ++ l2) c = Js.bind (playAll l1 c) (playAll l2).
Proof.
  revert c. induction l1 as [| n l1 IH]; intros c; cbn; [reflexivity |].
  destruct (playAnimation n c) as [c1 | e]; cbn; [apply IH | reflexivity].
Qed.

(** Requests for registered names never throw and keep the set of
    registered actions. *)
Lemma playAll_known (names : list string) (c : Controller) :
  Forall (fun n => is_Some (actions c !! n)) names ->
  exists c' : Controller,
    playAll names c = Js.Normal c'
    /\ console c' = console c
    /\ forall k : string, is_Some (actions c' !! k) <-> is_Some (actions c !! k).
Proof.
  revert c. induction names as [| n names IH]; intros c Hall.
  - exists c. cbn. repeat split; auto.
  - apply Forall_cons in Hall. destruct Hall as [[a Ha] Hrest].
    destruct (playAnimation_known n c a Ha) as (c1 & H1 & Hcons1 & _).
    destruct (playAnimation_known_dom n c c1 (mk_is_Some _ _ Ha) H1) as [_ Hdom1].
    destruct (IH c1) as (c' & Hrun & Hcons & Hdom).
    { eapply Forall_impl; [exact Hrest |]. cbn. intros k Hk. apply Hdom1, Hk. }
    exists c'. cbn. rewrite H1. cbn. split; [exact Hrun |].
    split; [congruence |].
    intros k. rewrite Hdom. apply Hdom1.
Qed.

End PlaybackFacts.

(** C2. After any finite sequence of [playAnimation] calls whose names are
    all registered, ending with a call for [last], no call has thrown, the
    registered actions are the same as before, exactly one of them is
    scheduled and running, namely [last], and it loops without bound (so two
    calls in a row with the same name leave one playing action, not two). *)
Theorem playAll_leaves_only_last_looping :
  forall (names : list string) (last : string) (c : UseBearModel.Controller),
    Forall (fun n => is_Some (UseBearModel.actions c !! n)) (names ++ [last]) ->
    exists c' : UseBearModel.Controller,
      UseBearModel.playAll (names ++ [last]) c = Js.Normal c'
      /\ dom (UseBearModel.actions c') = dom (UseBearModel.actions c)
      /\ (exists a : THREE.AnimationAction,
             UseBearModel.actions c' !! last = Some a
             /\ THREE.loop a = THREE.LoopRepeat
             /\ THREE.repetitions a = THREE.Infinity)
      /\ (forall (k : string) (a : THREE.AnimationAction),
             UseBearModel.actions c' !! k = Some a ->
             (THREE.isScheduled a = true <-> k = last)
             /\ (THREE.isRunning a = true <-> k = last)).
Proof.
  intros names last c Hall.
  apply Forall_app in Hall. destruct Hall as [Hnames Hlast].
  apply Forall_cons in Hlast. destruct Hlast as [Hlast _].
  destruct (playAll_known names c Hnames) as (c1 & Hrun1 & _ & Hdom1).
  apply Hdom1 in Hlast. destruct Hlast as [a0 Ha0].
  destruct (playAnimation_known last c1 a0 Ha0) as (c' & Hplay & _ & Hlook).
  exists c'. split.
  { rewrite playAll_app, Hrun1. cbn. rewrite Hplay. reflexivity. }
  split.
  { apply set_eq. intros k. rewrite !elem_of_dom, <- Hdom1, Hlook.
    destruct (decide (k = last)) as [-> | Hk].
    - rewrite Ha0. split; eauto.
    - rewrite fmap_is_Some. reflexivity. }
  split.
  { exists (UseBearModel.restarted a0). rewrite Hlook.
    destruct (decide (last = last)); [| contradiction]. repeat split. }
  intros k a Hka. rewrite Hlook in Hka.
  destruct (decide (k = last)) as [-> | Hk].
  - injection Hka as <-. destruct (restarted_running a0) as (Hs & Hr & _).
    rewrite Hs, Hr. split; split; reflexivity.
  - destruct (UseBearModel.actions c1 !! k) as [b |]; [| discriminate Hka].
    injection Hka as <-. destruct (stop_not_scheduled b) as [Hs Hr].
    rewrite Hs, Hr. split; split; intros H; first [discriminate H | contradiction].
Qed.

Lemma playAll_leaves_only_last_looping_witness :
  let idle := {| THREE.isScheduled := false; THREE.enabled := true; THREE.paused := false;
                 THREE.time := 0; THREE.loop := THREE.LoopRepeat;
                 THREE.repetitions := THREE.Infinity; THREE.fading := None |} in
  let c := {| UseBearModel.actions :=
                <["jumping"%string := idle]> (<["punching"%string := idle]> ∅);
              UseBearModel.console := [] |} in
  exists c' : UseBearModel.Controller,
    UseBearModel.playAll (["jumping"%string; "punching"%string] ++ ["punching"%string]) c
    = Js.Normal c'
    /\ (exists a : THREE.AnimationAction,
           UseBearModel.actions c' !! "punching"%string = Some a
           /\ THREE.loop a = THREE.LoopRepeat
           /\ THREE.repetitions a = THREE.Infinity).
Proof.
  intros idle c.
  destruct (playAll_leaves_only_last_looping ["jumping"; "punching"]%string "punching"%string c)
    as (c' & Hrun & _ & Hlast & _).
  - repeat constructor; eexists; vm_compute; reflexivity.
  - exists c'. split; [exact Hrun | exact Hlast].
Defined.

Section UnknownNames.
Import UseBearModel.

Lemma stopOthers_unregistered (name : string) (acts : gmap string THREE.AnimationAction) :
  acts !! name = None -> stopOthers name acts = THREE.stop <$> acts.
Proof.
  intros Hnone. apply map_eq. intros k.
  rewrite stopOthers_lookup, lookup_fmap.
  destruct (decide (k = name)) as [-> | _]; [rewrite Hnone |]; reflexivity.
Qed.

Lemma member_missing {A : Type} (key : string) :
  key ∉ Js.objectPrototypeKeys -> Js.member (@None A) key = Js.Missing.
Proof.
  intros Hk. unfold Js.member. rewrite bool_decide_eq_false_2 by exact Hk. reflexivity.
Qed.

Lemma member_inherited {A : Type} (key : string) :
  key ∈ Js.objectPrototypeKeys -> Js.member (@None A) key = Js.Inherited.
Proof.
  intros Hk. unfold Js.member. rewrite bool_decide_eq_true_2 by exact Hk. reflexivity.
Qed.

Lemma actionNames_not_inherited (name : string) :
  In name Types.ActionName -> name ∉ Js.objectPrototypeKeys.
Proof.
  assert (Hall : forallb (fun n => negb (bool_decide (n ∈ Js.objectPrototypeKeys)))
                   Types.ActionName = true) by (vm_compute; reflexivity).
  rewrite forallb_forall in Hall. intros Hin. apply Hall in Hin.
  apply negb_true_iff in Hin. apply bool_decide_eq_false_1 in Hin. exact Hin.
Qed.

End UnknownNames.

(** C3 as stated fails: "toString" names no action, yet a request for it is
    no no-op.  [actions["toString"]] is the method every object inherits, so
    the guard lets it through: the animation that was playing is stopped, no
    warning is written, and the call throws a TypeError. *)
Lemma playAnimation_toString_stops_and_throws :
  let playing := {| THREE.isScheduled := true; THREE.enabled := true; THREE.paused := false;
                    THREE.time := 1.25; THREE.loop := THREE.LoopRepeat;
                    THREE.repetitions := THREE.Infinity; THREE.fading := None |} in
  let c := {| UseBearModel.actions := <["jumping"%string := playing]> ∅;
              UseBearModel.console := [] |} in
  UseBearModel.actions c !! "toString"%string = None
  /\ UseBearModel.playAnimation "toString" c
     = Js.Throw (Js.TypeError "action.reset is not a function")
  /\ UseBearModel.actions (fst (UseBearModel.playAnimationRun "toString" c))
       !! "jumping"%string = Some (THREE.stop playing)
  /\ THREE.isRunning (THREE.stop playing) = false
  /\ UseBearModel.console (fst (UseBearModel.playAnimationRun "toString" c)) = [].
Proof.
  intros playing c.
  split; [vm_compute; reflexivity |].
  split; [vm_compute; reflexivity |].
  split; [vm_compute; reflexivity |].
  split; reflexivity.
Qed.

(** C3 (amended). No name of the type [ActionName] is the name of a member
    objects inherit.  For every name that is not such a member name, and so
    for every [ActionName], a request without a registered action completes
    normally, leaves every action exactly as it was, and adds one warning to
    the console; the same holds when the request comes through the model
    component's effect.  A member name such as "toString" is not covered:
    there the call stops every action and throws. *)
Theorem playAnimation_unknown_name_is_noop :
  (forall name : string, In name Types.ActionName -> name ∉ Js.objectPrototypeKeys)
  /\ (forall (name : string) (c : UseBearModel.Controller),
        UseBearModel.actions c !! name = None ->
        name ∉ Js.objectPrototypeKeys ->
        UseBearModel.playAnimationRun name c
        = ({| UseBearModel.actions := UseBearModel.actions c;
              UseBearModel.console :=
                UseBearModel.console c
                  ++ [UseBearModel.warn (UseBearModel.notFoundMessage name)] |},
           Js.Normal tt)
        /\ UseBearModel.playAnimation name c
           = Js.Normal {| UseBearModel.actions := UseBearModel.actions c;
                          UseBearModel.console :=
                            UseBearModel.console c
                              ++ [UseBearModel.warn (UseBearModel.notFoundMessage name)] |}
        /\ (forall (status : Types.LoadingStatus) (p : BearModel.Props),
               BearModel.animation p = name ->
               exists c' : UseBearModel.Controller,
                 BearModel.playEffect status p c = Js.Normal c'
                 /\ UseBearModel.actions c' = UseBearModel.actions c))
  /\ (forall (name : string) (c : UseBearModel.Controller),
        UseBearModel.actions c !! name = None ->
        name ∈ Js.objectPrototypeKeys ->
        UseBearModel.playAnimationRun name c
        = ({| UseBearModel.actions := THREE.stop <$> UseBearModel.actions c;
              UseBearModel.console := UseBearModel.console c |},
           Js.Throw (Js.TypeError "action.reset is not a function"))).
Proof.
  split; [exact actionNames_not_inherited |].
  split.
  - intros name c Hnone Hname.
    assert (Hrun : UseBearModel.playAnimationRun name c
                   = ({| UseBearModel.actions := UseBearModel.actions c;
                         UseBearModel.console :=
                           UseBearModel.console c
                             ++ [UseBearModel.warn (UseBearModel.notFoundMessage name)] |},
                      Js.Normal tt)).
    { unfold UseBearModel.playAnimationRun. rewrite Hnone, (member_missing name Hname).
      reflexivity. }
    assert (Hplay : UseBearModel.playAnimation name c
                    = Js.Normal {| UseBearModel.actions := UseBearModel.actions c;
                                   UseBearModel.console :=
                                     UseBearModel.console c
                                       ++ [UseBearModel.warn
                                             (UseBearModel.notFoundMessage name)] |}).
    { unfold UseBearModel.playAnimation. rewrite Hrun. reflexivity. }
    split; [exact Hrun |]. split; [exact Hplay |].
    intros status p Hp. unfold BearModel.playEffect. rewrite Hp.
    destruct status; first [exists c; split; reflexivity
                           | eexists; split; [exact Hplay | reflexivity]].
  - intros name c Hnone Hname. unfold UseBearModel.playAnimationRun.
    rewrite Hnone, (member_inherited name Hname), (stopOthers_unregistered name _ Hnone).
    reflexivity.
Qed.

Lemma playAnimation_unknown_name_is_noop_witness :
  let playing := {| THREE.isScheduled := true; THREE.enabled := true; THREE.paused := false;
                    THREE.time := 1.25; THREE.loop := THREE.LoopRepeat;
                    THREE.repetitions := THREE.Infinity; THREE.fading := Some 0.5%Q |} in
  let c := {| UseBearModel.actions := <["jumping"%string := playing]> ∅;
              UseBearModel.console := [] |} in
  UseBearModel.playAnimation "walking" c
  = Js.Normal {| UseBearModel.actions := UseBearModel.actions c;
                 UseBearModel.console :=
                   [UseBearModel.warn (UseBearModel.notFoundMessage "walking")] |}.
Proof.
  intros playing c.
  destruct playAnimation_unknown_name_is_noop as (Htyped & Hnoop & _).
  destruct (Hnoop "walking"%string c) as (_ & H & _).
  - vm_compute. reflexivity.
  - apply Htyped. vm_compute. tauto.
  - exact H.
Defined.

(** ** Composition: selection, start overlay, error boundary *)

Section AppFacts.
Import Types App.

Lemma catalog_length : length AnimationConfig.ANIMATIONS = 40%nat.
Proof. reflexivity. Qed.

Lemma step_index_in_range (dt : DeviceType) (s : State) (e : Event) :
  (selectedIndex s < 40)%nat -> (selectedIndex (step dt s e) < 40)%nat.
Proof.
  intros Hs.
  assert (Hprev : (selectedIndex (AnimationCarousel.handlePrev (carouselProps dt s)
                                    handleAnimationSelect s) < 40)%nat).
  { unfold AnimationCarousel.handlePrev, AnimationCarousel.hasPrev.
    cbn [carouselProps AnimationCarousel.selectedIndex].
    destruct (Nat.ltb_spec 0 (selectedIndex s)); cbn; lia. }
  assert (Hnext : (selectedIndex (AnimationCarousel.handleNext (carouselProps dt s)
                                    handleAnimationSelect s) < 40)%nat).
  { unfold AnimationCarousel.handleNext, AnimationCarousel.hasNext.
    cbn [carouselProps AnimationCarousel.selectedIndex AnimationCarousel.animations].
    rewrite catalog_length.
    destruct (Z.ltb_spec (Z.of_nat (selectedIndex s)) (Z.of_nat 40 - 1)); cbn; lia. }
  destruct e; cbn [step]; try assumption.
  - destruct (hasStarted s); [assumption |].
    unfold TapToStart.handleClick. destruct (negb (isModelLoading s)); assumption.
  - destruct (hasStarted s); [assumption |].
    unfold TapToStart.onKeyDown.
    destruct (negb (isModelLoading s) && _); assumption.
  - unfold AnimationCarousel.handleKeyDown.
    destruct (String.eqb key "ArrowLeft"); [assumption |].
    destruct (String.eqb key "ArrowRight"); assumption.
Qed.

(** The carousel never selects an index outside the catalog. *)
Lemma run_index_in_range (dt : DeviceType) (es : list Event) (s : State) :
  (selectedIndex s < 40)%nat -> (selectedIndex (run dt es s) < 40)%nat.
Proof.
  revert s. induction es as [| e es IH]; intros s Hs; cbn; [assumption |].
  apply IH, step_index_in_range, Hs.
Qed.

Lemma current_animation_defined (s : State) :
  (selectedIndex s < 40)%nat ->
  exists cur : Animation, AnimationConfig.ANIMATIONS !! selectedIndex s = Some cur.
Proof.
  intros Hs. apply lookup_lt_is_Some. rewrite catalog_length. exact Hs.
Qed.

(** The colour props of the background element are constants of the markup. *)
Lemma prismProps_colors (dt : DeviceType) (cur : Animation) :
  Prism.hueShift (prismProps dt cur) = 0%Q
  /\ Prism.colorFrequency (prismProps dt cur) = 1%Q
  /\ Prism.bloom (prismProps dt cur) = None
  /\ Prism.saturation (prismProps dt cur) = None.
Proof. repeat split. Qed.

Lemma render_backgrounds (r : Responsive.UseResponsiveReturn)
    (perf : DevicePerformance.State) (boundary : ErrorBoundary.State) (s : State)
    (cur : Animation) :
  AnimationConfig.ANIMATIONS !! selectedIndex s = Some cur ->
  exists el : Element,
    render r perf boundary s = Js.Normal el
    /\ backgrounds el = [prismProps (Responsive.deviceType r) cur].
Proof.
  intros Hcur. unfold render. rewrite Hcur. cbn [Js.deref Js.bind].
  eexists. split; [reflexivity |].
  unfold backgrounds, layout, warningLeaves, overlayLeaves.
  destruct (Responsive.isBelowMinWidth r), (negb (hasStarted s)); reflexivity.
Qed.

(** *** The start overlay *)

Lemma tap_while_loading_ignored (dt : DeviceType) (s : State) (e : Event) :
  isTap e = true -> isModelLoading s = true -> step dt s e = s.
Proof.
  intros Htap Hload. destruct e; try discriminate Htap; cbn [step].
  - destruct (hasStarted s); [reflexivity |].
    unfold TapToStart.handleClick. rewrite Hload. reflexivity.
  - destruct (hasStarted s); [reflexivity |].
    unfold TapToStart.onKeyDown. rewrite Hload. reflexivity.
Qed.

Lemma tap_after_load_starts (dt : DeviceType) (s : State) (e : Event) :
  isTap e = true -> isModelLoading s = false -> hasStarted (step dt s e) = true.
Proof.
  intros Htap Hload. destruct e; try discriminate Htap; cbn [step].
  - destruct (hasStarted s) eqn:Hs; [exact Hs |].
    unfold TapToStart.handleClick. rewrite Hload. reflexivity.
  - destruct (hasStarted s) eqn:Hs; [exact Hs |].
    unfold TapToStart.onKeyDown. rewrite Hload. cbn [isTap] in Htap.
    cbn [negb andb]. rewrite Htap. reflexivity.
Qed.

Lemma step_keeps_started (dt : DeviceType) (s : State) (e : Event) :
  hasStarted s = true -> hasStarted (step dt s e) = true.
Proof.
  intros Hs. destruct e; cbn [step]; rewrite ?Hs; try assumption; try reflexivity.
  - unfold AnimationCarousel.handlePrev.
    destruct (AnimationCarousel.hasPrev _); assumption.
  - unfold AnimationCarousel.handleNext.
    destruct (AnimationCarousel.hasNext _); assumption.
  - unfold AnimationCarousel.handleKeyDown, AnimationCarousel.handlePrev,
      AnimationCarousel.handleNext.
    destruct (String.eqb key "ArrowLeft"); [destruct (AnimationCarousel.hasPrev _); assumption |].
    destruct (String.eqb key "ArrowRight"); [destruct (AnimationCarousel.hasNext _) |];
      assumption.
Qed.

Lemma run_keeps_started (dt : DeviceType) (es : list Event) (s : State) :
  hasStarted s = true -> hasStarted (run dt es s) = true.
Proof.
  revert s. induction es as [| e es IH]; intros s Hs; cbn; [assumption |].
  apply IH, step_keeps_started, Hs.
Qed.

(** Only a tap made when loading is over can start the session. *)
Lemma step_starts_only_by_tap (dt : DeviceType) (s : State) (e : Event) :
  hasStarted s = false -> hasStarted (step dt s e) = true ->
  isTap e = true /\ isModelLoading s = false.
Proof.
  intros Hs Hstep. destruct e; cbn [step] in Hstep; rewrite ?Hs in Hstep.
  - unfold TapToStart.handleClick in Hstep.
    destruct (isModelLoading s); cbn in Hstep; [congruence | split; reflexivity].
  - unfold TapToStart.onKeyDown in Hstep. cbn [isTap].
    destruct (isModelLoading s); cbn [negb andb] in Hstep; [congruence |].
    destruct (String.eqb key "Enter" || String.eqb key " "); [split; reflexivity | congruence].
  - cbn in Hstep. congruence.
  - cbn in Hstep. congruence.
  - unfold AnimationCarousel.handlePrev in Hstep.
    destruct (AnimationCarousel.hasPrev _); cbn in Hstep; congruence.
  - unfold AnimationCarousel.handleNext in Hstep.
    destruct (AnimationCarousel.hasNext _); cbn in Hstep; congruence.
  - unfold AnimationCarousel.handleKeyDown, AnimationCarousel.handlePrev,
      AnimationCarousel.handleNext in Hstep.
    destruct (String.eqb key "ArrowLeft");
      [destruct (AnimationCarousel.hasPrev _); cbn in Hstep; congruence |].
    destruct (String.eqb key "ArrowRight");
      [destruct (AnimationCarousel.hasNext _); cbn in Hstep; congruence | congruence].
Qed.

Lemma run_app (dt : DeviceType) (es1 es2 : list Event) (s : State) :
  run dt (es1 ++ es2) s = run dt es2 (run dt es1 s).
Proof. unfold run. apply fold_left_app. Qed.

Lemma started_iff_tap_after_load (dt : DeviceType) (es : list Event) (s : State) :
  hasStarted s = false ->
  hasStarted (run dt es s) = true
  <-> exists (pre post : list Event) (e : Event),
        es = pre ++ e :: post /\ isTap e = true /\ isModelLoading (run dt pre s) = false.
Proof.
  revert s. induction es as [| e es IH]; intros s Hs.
  - cbn. split; [congruence |].
    intros (pre & post & e & Hsplit & _). destruct pre; discriminate Hsplit.
  - cbn [run fold_left]. fold (run dt es (step dt s e)).
    destruct (hasStarted (step dt s e)) eqn:Hstep.
    + destruct (step_starts_only_by_tap dt s e Hs Hstep) as [Htap Hload].
      split; [| intros _; apply run_keeps_started, Hstep].
      intros _. exists [], es, e. repeat split; assumption.
    + rewrite (IH (step dt s e) Hstep). split.
      * intros (pre & post & e' & -> & Htap & Hload).
        exists (e :: pre), post, e'. repeat split; assumption.
      * intros (pre & post & e' & Hsplit & Htap & Hload).
        destruct pre as [| e0 pre].
        -- cbn in Hsplit. injection Hsplit as <- <-. cbn in Hload.
           rewrite (tap_after_load_starts dt s e Htap Hload) in Hstep. discriminate Hstep.
        -- cbn in Hsplit. injection Hsplit as <- ->.
           exists pre, post, e'. repeat split; assumption.
Qed.

End AppFacts.

(** C1. After selecting catalog indices 0, 1 and 2 in turn, the catalog
    entry at the selected index is "punching" with hue shift -0.5, yet the
    background element that [App] renders is given hue shift 0 and colour
    frequency 1, and neither a bloom nor a saturation: the colour props do
    not come from the selected entry. *)
Theorem prism_colors_after_selecting_0_1_2 :
  forall (r : Responsive.UseResponsiveReturn) (perf : DevicePerformance.State)
         (boundary : ErrorBoundary.State),
    let s := App.handleAnimationSelect 2
               (App.handleAnimationSelect 1
                  (App.handleAnimationSelect 0 App.initialState)) in
    exists (entry : Types.Animation) (el : App.Element) (p : Prism.Props),
      AnimationConfig.ANIMATIONS !! App.selectedIndex s = Some entry
      /\ Types.name entry = "punching"%string
      /\ Types.hueShift (Types.colorScheme entry) = (-0.5)%Q
      /\ App.render r perf boundary s = Js.Normal el
      /\ App.backgrounds el = [p]
      /\ Prism.hueShift p = 0%Q
      /\ Prism.colorFrequency p = 1%Q
      /\ Prism.bloom p = None
      /\ Prism.saturation p = None
      /\ ~ (Prism.hueShift p == Types.hueShift (Types.colorScheme entry))%Q.
Proof.
  intros r perf boundary s.
  destruct (current_animation_defined s) as [entry Hentry]; [cbn; lia |].
  destruct (render_backgrounds r perf boundary s entry Hentry) as (el & Hel & Hbg).
  exists entry, el, (App.prismProps (Responsive.deviceType r) entry).
  split; [exact Hentry |].
  cbn in Hentry. injection Hentry as <-.
  repeat split; try assumption.
  cbn. intros H. vm_compute in H. discriminate H.
Qed.

(** C8 as stated fails: a tap made while the model is still loading is
    dropped, so once loading completes the overlay is still on screen,
    showing the tap prompt and waiting for another tap. *)
Lemma tap_before_load_does_not_dismiss_overlay :
  ~ (App.overlay (App.run Types.desktop [App.OverlayClick; App.LoadComplete] App.initialState)
     = None).
Proof. vm_compute. discriminate. Qed.

(** C8 (amended). While it is on screen the overlay shows the loading
    indicator as long as the model is loading and the tap prompt afterwards;
    a tap made while the model is loading changes nothing; a tap made once
    loading is over dismisses the overlay; a dismissed overlay never comes
    back; and so, over a whole session, the overlay is dismissed exactly when
    some tap was made after loading had finished. *)
Theorem overlay_dismissed_by_tap_after_load :
  forall dt : Types.DeviceType,
    (forall s : App.State,
        App.hasStarted s = false ->
        App.overlay s
        = Some (if App.isModelLoading s then TapToStart.LoadingIndicator
                else TapToStart.TapPrompt))
    /\ (forall (s : App.State) (e : App.Event),
          App.isTap e = true -> App.isModelLoading s = true -> App.step dt s e = s)
    /\ (forall (s : App.State) (e : App.Event),
          App.isTap e = true -> App.isModelLoading s = false ->
          App.overlay (App.step dt s e) = None)
    /\ (forall (es : list App.Event) (s : App.State),
          App.overlay s = None -> App.overlay (App.run dt es s) = None)
    /\ (forall es : list App.Event,
          App.overlay (App.run dt es App.initialState) = None
          <-> exists (pre post : list App.Event) (e : App.Event),
                es = pre ++ e :: post
                /\ App.isTap e = true
                /\ App.isModelLoading (App.run dt pre App.initialState) = false).
Proof.
  intros dt.
  assert (Hov : forall s : App.State, App.overlay s = None <-> App.hasStarted s = true).
  { intros s. unfold App.overlay. destruct (App.hasStarted s); cbn; split; congruence. }
  split.
  { intros s Hs. unfold App.overlay, TapToStart.render. rewrite Hs.
    destruct (App.isModelLoading s); reflexivity. }
  split; [apply tap_while_loading_ignored |].
  split.
  { intros s e Htap Hload. apply Hov. apply tap_after_load_starts; assumption. }
  split.
  { intros es s Hs. apply Hov. apply run_keeps_started. apply Hov, Hs. }
  intros es. rewrite Hov. apply started_iff_tap_after_load. reflexivity.
Qed.

Lemma overlay_dismissed_by_tap_after_load_witness :
  App.step Types.mobile App.initialState App.OverlayClick = App.initialState
  /\ App.overlay
       (App.step Types.mobile (App.setIsModelLoading false App.initialState)
          (App.OverlayKeyDown "Enter")) = None.
Proof.
  destruct (overlay_dismissed_by_tap_after_load Types.mobile) as (_ & Hdrop & Hstart & _).
  split.
  - apply Hdrop; reflexivity.
  - apply Hstart; reflexivity.
Defined.

(** Without a boundary around it, an exception from the canvas would leave
    nothing on screen. *)
Lemma unguarded_canvas_error_blanks_screen :
  forall (err : ErrorBoundary.Error) (c : Canvas.Props) (m : BearModel.Props)
         (p : Prism.Props) (q : AnimationCarousel.Props),
    App.screen
      (fun l => match l with App.BearCanvas _ _ => Some err | _ => None end)
      (Js.Normal
         (App.layout App.Div [] (App.Host (App.PrismBackground p))
            [App.Host (App.BearCanvas c m)] (App.Host (App.Carousel q))))
    = None.
Proof. intros. reflexivity. Qed.

Section PointerFacts.
Import Types App.



End PointerFacts.




(** ** The detector on sample devices *)

Example detect_desktop_nvidia :
  DevicePerformance.tier
    (DevicePerformance.mounted
       {| DevicePerformance.webgl :=
            Some {| DevicePerformance.hasGetExtension := true;
                    DevicePerformance.debugRendererInfo :=
                      Some "ANGLE (NVIDIA GeForce RTX 3070 Direct3D11)"%string |};
          DevicePerformance.experimental_webgl := None;
          DevicePerformance.userAgent := "Mozilla/5.0 (Windows NT 10.0; Win64; x64) Chrome/120";
          DevicePerformance.deviceMemory := Some (Js.Finite 8);
          DevicePerformance.devicePixelRatio := Some (Js.Finite 1) |})
  = Types.high.
Proof. reflexivity. Qed.

Example detect_android_adreno :
  DevicePerformance.effect
    {| DevicePerformance.webgl :=
         Some {| DevicePerformance.hasGetExtension := true;
                 DevicePerformance.debugRendererInfo := Some "Adreno (TM) 640"%string |};
       DevicePerformance.experimental_webgl := None;
       DevicePerformance.userAgent := "Mozilla/5.0 (Linux; Android 13; Pixel 7) Mobile Safari/537.36";
       DevicePerformance.deviceMemory := Some (Js.Finite 8);
       DevicePerformance.devicePixelRatio := Some (Js.Finite 2.625) |}
  = [DevicePerformance.setGpuInfo "Adreno (TM) 640";
     DevicePerformance.setTier (DevicePerformance.SetUpdater DevicePerformance.mobileCap)].
Proof. reflexivity. Qed.

Example detect_iphone_apple_gpu :
  DevicePerformance.tier
    (DevicePerformance.mounted
       {| DevicePerformance.webgl :=
            Some {| DevicePerformance.hasGetExtension := true;
                    DevicePerformance.debugRendererInfo := Some "Apple GPU"%string |};
          DevicePerformance.experimental_webgl := None;
          DevicePerformance.userAgent := "Mozilla/5.0 (iPhone; CPU iPhone OS 17_0) Mobile/15E148";
          DevicePerformance.deviceMemory := None;
          DevicePerformance.devicePixelRatio := Some (Js.Finite 3) |})
  = Types.medium.
Proof. reflexivity. Qed.

Example detect_no_renderer_info_low_memory :
  DevicePerformance.tier
    (DevicePerformance.mounted
       {| DevicePerformance.webgl := None;
          DevicePerformance.experimental_webgl :=
            Some {| DevicePerformance.hasGetExtension := true;
                    DevicePerformance.debugRendererInfo := None |};
          DevicePerformance.userAgent := "Mozilla/5.0 (X11; Linux x86_64) Firefox/121.0";
          DevicePerformance.deviceMemory := Some (Js.Finite 0.5);
          DevicePerformance.devicePixelRatio := None |})
  = Types.low.
Proof. reflexivity. Qed.

Example carousel_stops_at_last_entry :
  App.selectedIndex
    (App.run Types.desktop (repeat App.CarouselNext 45) App.initialState) = 39%nat.
Proof. reflexivity. Qed.

(** * Further properties of the hooks and components *)

(** ** Viewport tracking: debounce, orientation, flags *)

Section ResponsiveMore.
Import Types Responsive.

(** The events of a burst: each resize is followed by a pause. *)
Lemma burst_keeps_state (burst : list (Z * Z * N)) (t : Tracker) :
  Forall (fun e => (snd e < 100)%N) burst ->
  stateWidth (run (flat_map (fun e => [Resize (fst (fst e)) (snd (fst e)); Elapse (snd e)])
                     burst) t) = stateWidth t
  /\ stateHeight (run (flat_map (fun e => [Resize (fst (fst e)) (snd (fst e)); Elapse (snd e)])
                         burst) t) = stateHeight t.
Proof.
  revert t. induction burst as [| [[w h] gap] burst IH]; intros t Hall.
  - split; reflexivity.
  - apply Forall_cons in Hall. destruct Hall as [Hgap Hrest]. cbn [snd fst] in Hgap.
    cbn [flat_map fst snd]. unfold run. rewrite fold_left_app.
    fold (run [Resize w h; Elapse gap] t).
    match goal with
    | |- context [fold_left step ?es ?t0] => change (fold_left step es t0) with (run es t0)
    end.
    destruct (IH (run [Resize w h; Elapse gap] t) Hrest) as [Hw Hh].
    destruct (resize_then_wait_short t w h gap Hgap) as [Hw0 Hh0].
    split; congruence.
Qed.

Lemma elapse_without_timer (t : Tracker) (l : list N) :
  timeoutId t = None ->
  stateWidth (run (map Elapse l) t) = stateWidth t
  /\ stateHeight (run (map Elapse l) t) = stateHeight t
  /\ timeoutId (run (map Elapse l) t) = None.
Proof.
  revert t. induction l as [| ms l IH]; intros t Ht.
  - repeat split; assumption.
  - cbn [map run fold_left step]. rewrite Ht.
    match goal with
    | |- context [fold_left step ?es ?t0] => change (fold_left step es t0) with (run es t0)
    end.
    match goal with
    | |- context [run _ ?t0] => destruct (IH t0) as (Hw & Hh & Hn); [reflexivity |]
    end.
    repeat split; assumption.
Qed.

End ResponsiveMore.

(** X1. However many resize events arrive less than 100 ms apart, none of
    them is committed while the burst lasts; 100 ms after the last one the
    tracked size is the size of that last event, and of no earlier one. *)
Theorem resize_burst_commits_only_last_size :
  forall (t : Responsive.Tracker) (burst : list (Z * Z * N)) (w h : Z) (ms : N),
    Forall (fun e => (snd e < 100)%N) burst ->
    let events :=
      flat_map (fun e => [Responsive.Resize (fst (fst e)) (snd (fst e));
                          Responsive.Elapse (snd e)]) burst in
    let t1 := Responsive.run (events ++ [Responsive.Resize w h]) t in
    let t2 := Responsive.step t1 (Responsive.Elapse ms) in
    Responsive.stateWidth t1 = Responsive.stateWidth t
    /\ Responsive.stateHeight t1 = Responsive.stateHeight t
    /\ ((ms < 100)%N ->
        Responsive.stateWidth t2 = Responsive.stateWidth t
        /\ Responsive.stateHeight t2 = Responsive.stateHeight t)
    /\ ((100 <= ms)%N ->
        Responsive.stateWidth t2 = w /\ Responsive.stateHeight t2 = h).
Proof.
  intros t burst w h ms Hall events t1 t2.
  destruct (burst_keeps_state burst t Hall) as [Hw Hh].
  fold events in Hw, Hh.
  assert (Ht1 : t1 = Responsive.step (Responsive.run events t) (Responsive.Resize w h)).
  { subst t1. unfold Responsive.run. rewrite fold_left_app. reflexivity. }
  assert (Ht2 : t2 = Responsive.run [Responsive.Resize w h; Responsive.Elapse ms]
                       (Responsive.run events t)).
  { subst t2. rewrite Ht1. reflexivity. }
  split; [rewrite Ht1; exact Hw |].
  split; [rewrite Ht1; exact Hh |].
  split.
  - intros Hms. rewrite Ht2.
    destruct (resize_then_wait_short (Responsive.run events t) w h ms Hms) as [H1 H2].
    split; congruence.
  - intros Hms. rewrite Ht2.
    exact (resize_then_wait_long (Responsive.run events t) w h ms Hms).
Qed.

Lemma resize_burst_commits_only_last_size_witness :
  let t := Responsive.init 1280 720 in
  let t2 := Responsive.step
              (Responsive.run
                 (flat_map (fun e => [Responsive.Resize (fst (fst e)) (snd (fst e));
                                      Responsive.Elapse (snd e)])
                    [(1100%Z, 720%Z, 16%N); (900%Z, 700%Z, 16%N); (700%Z, 650%Z, 99%N)]
                  ++ [Responsive.Resize 600 640]) t)
              (Responsive.Elapse 100) in
  Responsive.stateWidth t2 = 600%Z /\ Responsive.stateHeight t2 = 640%Z.
Proof.
  intros t t2.
  destruct (resize_burst_commits_only_last_size t
              [(1100%Z, 720%Z, 16%N); (900%Z, 700%Z, 16%N); (700%Z, 650%Z, 99%N)] 600 640 100)
    as (_ & _ & _ & H).
  - repeat constructor.
  - apply H. lia.
Defined.

(** X2. After the hook's cleanup has run, no amount of waiting changes the
    tracked size: a resize that was still pending is dropped. *)
Theorem cleanup_cancels_pending_resize :
  forall (t : Responsive.Tracker) (w h : Z) (waits : list N),
    let t' := Responsive.run (map Responsive.Elapse waits)
                (Responsive.cleanup (Responsive.step t (Responsive.Resize w h))) in
    Responsive.stateWidth t' = Responsive.stateWidth t
    /\ Responsive.stateHeight t' = Responsive.stateHeight t.
Proof.
  intros t w h waits t'. subst t'.
  destruct (elapse_without_timer
              (Responsive.cleanup (Responsive.step t (Responsive.Resize w h))) waits)
    as (Hw & Hh & _); [reflexivity |].
  split; [rewrite Hw | rewrite Hh]; reflexivity.
Qed.

(** X3. The orientation is landscape exactly when the width exceeds the
    height, so a square viewport is portrait; the two orientation flags are
    complementary; and swapping width and height flips the orientation of
    every viewport that is not square. *)
Theorem orientation_flips_on_rotation :
  forall w h : Z,
    (Responsive.orientation (Responsive.useResponsive w h) = Types.landscape <-> (h < w)%Z)
    /\ Responsive.isPortrait (Responsive.useResponsive w h)
       = negb (Responsive.isLandscape (Responsive.useResponsive w h))
    /\ (w = h -> Responsive.orientation (Responsive.useResponsive w h) = Types.portrait)
    /\ (w <> h ->
        Responsive.orientation (Responsive.useResponsive h w)
        <> Responsive.orientation (Responsive.useResponsive w h)).
Proof.
  intros w h. cbn [Responsive.useResponsive Responsive.orientation Responsive.isPortrait
                   Responsive.isLandscape].
  unfold Responsive.orientationOf.
  destruct (Z.ltb_spec h w) as [Hlt | Hge]; destruct (Z.ltb_spec w h) as [Hlt' | Hge'];
    repeat split; intros; try congruence; try lia.
Qed.

Lemma orientation_flips_on_rotation_witness :
  Responsive.orientation (Responsive.useResponsive 390 844)
  <> Responsive.orientation (Responsive.useResponsive 844 390)
  /\ Responsive.orientation (Responsive.useResponsive 500 500) = Types.portrait.
Proof.
  split.
  - destruct (orientation_flips_on_rotation 844 390) as (_ & _ & _ & H). apply H. lia.
  - destruct (orientation_flips_on_rotation 500 500) as (_ & _ & H & _). apply H. reflexivity.
Defined.

(** X4. Of the three device flags the hook returns exactly one is set, the
    one naming the device category; and a viewport below the minimum width of
    320 px is always classified as mobile. *)
Theorem device_flags_are_exclusive :
  forall w h : Z,
    let r := Responsive.useResponsive w h in
    ((Responsive.isMobile r, Responsive.isTablet r, Responsive.isDesktop r)
     = match Responsive.deviceType r with
       | Types.mobile => (true, false, false)
       | Types.tablet => (false, true, false)
       | Types.desktop => (false, false, true)
       end)
    /\ (Responsive.isBelowMinWidth r = true <-> (w < 320)%Z)
    /\ (Responsive.isBelowMinWidth r = true -> Responsive.isMobile r = true).
Proof.
  intros w h r. subst r.
  cbn [Responsive.useResponsive Responsive.isMobile Responsive.isTablet Responsive.isDesktop
       Responsive.deviceType Responsive.isBelowMinWidth].
  split; [destruct (Responsive.deviceTypeOf w); reflexivity |].
  unfold Types.MIN_VIEWPORT_WIDTH.
  split.
  - destruct (Z.ltb_spec w 320); split; intros; try reflexivity; try assumption;
      try discriminate; lia.
  - intros Hmin. destruct (Z.ltb_spec w 320); [| discriminate Hmin].
    rewrite (deviceTypeOf_mobile w) by lia. reflexivity.
Qed.

Lemma device_flags_are_exclusive_witness :
  Responsive.isMobile (Responsive.useResponsive 300 600) = true.
Proof.
  destruct (device_flags_are_exclusive 300 600) as (_ & _ & H).
  apply H. reflexivity.
Defined.

(** ** Device capability detection: what each signal can do to the tier *)

Section DetectorMore.
Import Types DevicePerformance.

Lemma classify_tier (renderer : string) (s : State) :
  tier (fold_left reduce (classify renderer) s) = tier s
  \/ tier (fold_left reduce (classify renderer) s) = medium
  \/ tier (fold_left reduce (classify renderer) s) = high.
Proof.
  unfold classify.
  repeat match goal with |- context [if ?c then _ else _] => destruct c end;
    cbn; auto.
Qed.

(** The renderer probe never reports the low tier. *)
Lemma probed_not_low (b : Browser) : tier (probed b) <> low.
Proof.
  unfold probed, gpuProbe.
  destruct (getContext b) as [gl |]; [| discriminate].
  destruct (debugRendererInfo gl) as [renderer |]; [| discriminate].
  cbn [fold_left].
  destruct (classify_tier renderer (reduce initialState (setGpuInfo renderer)))
    as [H | [H | H]]; rewrite H; discriminate.
Qed.

Lemma mounted_available (b : Browser) :
  webglUnavailable b = false ->
  mounted b = fold_left reduce (downgrades b) (probed b).
Proof.
  intros Hgl. unfold mounted, probed, effect. rewrite Hgl. apply fold_left_app.
Qed.

Lemma reduce_keeps_flags_setTier (s : State) (a : SetStateAction PerformanceTier) :
  supportsWebGL (reduce s (setTier a)) = supportsWebGL s
  /\ gpuInfo (reduce s (setTier a)) = gpuInfo s.
Proof. split; reflexivity. Qed.

Lemma downgrades_keep_flags (b : Browser) (s : State) :
  supportsWebGL (fold_left reduce (downgrades b) s) = supportsWebGL s
  /\ gpuInfo (fold_left reduce (downgrades b) s) = gpuInfo s.
Proof.
  unfold downgrades.
  destruct (isMobileUserAgent (userAgent b)), (isLowMemory (deviceMemory b));
    split; reflexivity.
Qed.

Lemma classify_keeps_flags (renderer : string) (s : State) :
  supportsWebGL (fold_left reduce (classify renderer) s) = supportsWebGL s
  /\ gpuInfo (fold_left reduce (classify renderer) s) = gpuInfo s.
Proof.
  unfold classify.
  repeat match goal with |- context [if ?c then _ else _] => destruct c end;
    split; reflexivity.
Qed.

Lemma runTier_app (l1 l2 : list (SetStateAction PerformanceTier)) (t : PerformanceTier) :
  runTier (l1 ++ l2) t = runTier l2 (runTier l1 t).
Proof. unfold runTier. apply fold_left_app. Qed.

End DetectorMore.

(** X5. A mobile user agent or a reported memory below the threshold each
    rule out the high tier, whatever the GPU; both together always give the
    low tier. *)
Theorem mobile_or_low_memory_is_never_high :
  forall b : DevicePerformance.Browser,
    (DevicePerformance.isMobileUserAgent (DevicePerformance.userAgent b) = true ->
     DevicePerformance.tier (DevicePerformance.mounted b) <> Types.high)
    /\ (DevicePerformance.isLowMemory (DevicePerformance.deviceMemory b) = true ->
        DevicePerformance.tier (DevicePerformance.mounted b) <> Types.high)
    /\ (DevicePerformance.isMobileUserAgent (DevicePerformance.userAgent b) = true ->
        DevicePerformance.isLowMemory (DevicePerformance.deviceMemory b) = true ->
        DevicePerformance.tier (DevicePerformance.mounted b) = Types.low).
Proof.
  intros b. destruct (DevicePerformance.webglUnavailable b) eqn:Hgl.
  { rewrite (mounted_unavailable b Hgl). cbn. repeat split; intros; congruence. }
  rewrite (mounted_available b Hgl).
  unfold DevicePerformance.downgrades.
  destruct (DevicePerformance.isMobileUserAgent (DevicePerformance.userAgent b)),
           (DevicePerformance.isLowMemory (DevicePerformance.deviceMemory b));
    cbn [fold_left app DevicePerformance.reduce DevicePerformance.tier
         DevicePerformance.applyAction];
    repeat split; intros; try discriminate;
    destruct (DevicePerformance.tier (DevicePerformance.probed b)); vm_compute; congruence.
Qed.

Lemma mobile_or_low_memory_is_never_high_witness :
  let b := {| DevicePerformance.webgl :=
                Some {| DevicePerformance.hasGetExtension := true;
                        DevicePerformance.debugRendererInfo :=
                          Some "ANGLE (NVIDIA GeForce RTX 4090)"%string |};
              DevicePerformance.experimental_webgl := None;
              DevicePerformance.userAgent := "Mozilla/5.0 (Linux; Android 14) Mobile";
              DevicePerformance.deviceMemory := Some (Js.Finite 2);
              DevicePerformance.devicePixelRatio := Some (Js.Finite 2) |} in
  DevicePerformance.tier (DevicePerformance.mounted b) = Types.low.
Proof.
  intros b.
  destruct (mobile_or_low_memory_is_never_high b) as (_ & _ & H).
  apply H; reflexivity.
Defined.

(** X6. The low tier always has a cause: the detector reports it only when
    WebGL is unusable, the user agent is mobile, or the reported memory is
    below the threshold.  A WebGL-capable desktop with enough memory is
    medium or high, also when its renderer string is unknown or hidden. *)
Theorem low_tier_has_a_cause :
  forall b : DevicePerformance.Browser,
    DevicePerformance.tier (DevicePerformance.mounted b) = Types.low ->
    DevicePerformance.webglUnavailable b = true
    \/ DevicePerformance.isMobileUserAgent (DevicePerformance.userAgent b) = true
    \/ DevicePerformance.isLowMemory (DevicePerformance.deviceMemory b) = true.
Proof.
  intros b Hlow.
  destruct (DevicePerformance.webglUnavailable b) eqn:Hgl; [left; reflexivity | right].
  rewrite (mounted_available b Hgl) in Hlow.
  unfold DevicePerformance.downgrades in Hlow.
  destruct (DevicePerformance.isMobileUserAgent (DevicePerformance.userAgent b));
    [left; reflexivity | right].
  destruct (DevicePerformance.isLowMemory (DevicePerformance.deviceMemory b));
    [reflexivity |].
  cbn in Hlow. exfalso. exact (probed_not_low b Hlow).
Qed.

Lemma low_tier_has_a_cause_witness :
  let b := {| DevicePerformance.webgl :=
                Some {| DevicePerformance.hasGetExtension := true;
                        DevicePerformance.debugRendererInfo := Some "Mali-G52"%string |};
              DevicePerformance.experimental_webgl := None;
              DevicePerformance.userAgent := "Mozilla/5.0 (Linux; Android 11) Mobile";
              DevicePerformance.deviceMemory := Some (Js.Finite 8);
              DevicePerformance.devicePixelRatio := Some (Js.Finite 2) |} in
  DevicePerformance.webglUnavailable b = true
  \/ DevicePerformance.isMobileUserAgent (DevicePerformance.userAgent b) = true
  \/ DevicePerformance.isLowMemory (DevicePerformance.deviceMemory b) = true.
Proof.
  intros b. apply (low_tier_has_a_cause b). reflexivity.
Defined.

(** X7. The detector's flags agree with the probe: [supportsWebGL] is false
    exactly when no usable context was found, the GPU string is empty in that
    case, and the target frame rate is 18 for the low tier and 30 otherwise. *)
Theorem detector_flags_follow_probe :
  forall b : DevicePerformance.Browser,
    DevicePerformance.supportsWebGL (DevicePerformance.mounted b)
    = negb (DevicePerformance.webglUnavailable b)
    /\ (DevicePerformance.webglUnavailable b = true ->
        DevicePerformance.gpuInfo (DevicePerformance.mounted b) = EmptyString)
    /\ (DevicePerformance.targetFPS (DevicePerformance.mounted b) = 18%Z
        <-> DevicePerformance.tier (DevicePerformance.mounted b) = Types.low)
    /\ (DevicePerformance.targetFPS (DevicePerformance.mounted b) = 30%Z
        <-> DevicePerformance.tier (DevicePerformance.mounted b) <> Types.low).
Proof.
  intros b. split; [| split].
  - destruct (DevicePerformance.webglUnavailable b) eqn:Hgl.
    + rewrite (mounted_unavailable b Hgl). reflexivity.
    + rewrite (mounted_available b Hgl).
      destruct (downgrades_keep_flags b (DevicePerformance.probed b)) as [-> _].
      unfold DevicePerformance.probed, DevicePerformance.gpuProbe.
      destruct (DevicePerformance.getContext b) as [gl |]; [| reflexivity].
      destruct (DevicePerformance.debugRendererInfo gl) as [r |]; [| reflexivity].
      cbn [fold_left].
      destruct (classify_keeps_flags r
                  (DevicePerformance.reduce DevicePerformance.initialState
                     (DevicePerformance.setGpuInfo r))) as [-> _].
      reflexivity.
  - intros Hgl. rewrite (mounted_unavailable b Hgl). reflexivity.
  - unfold DevicePerformance.targetFPS.
    destruct (DevicePerformance.tier (DevicePerformance.mounted b));
      vm_compute; repeat split; intros; congruence.
Qed.

Lemma detector_flags_follow_probe_witness :
  let b := {| DevicePerformance.webgl := None;
              DevicePerformance.experimental_webgl := None;
              DevicePerformance.userAgent := "Mozilla/5.0"%string;
              DevicePerformance.deviceMemory := None;
              DevicePerformance.devicePixelRatio := None |} in
  DevicePerformance.gpuInfo (DevicePerformance.mounted b) = EmptyString.
Proof.
  intros b.
  destruct (detector_flags_follow_probe b) as (_ & H & _).
  apply H. reflexivity.
Defined.

(** X10. The settings table of [bear.types.ts] and the hook agree on the
    frame rate for every tier, and the table's antialias flag is the one
    [App] gives the canvas.  On pixel density they agree for the high tier
    whenever the device reports a usable ratio; but where [window] exists
    without a [devicePixelRatio], the table's entry is NaN while the hook
    falls back to 1. *)
Theorem settings_table_agrees_with_hook :
  (forall (s : DevicePerformance.State) (window : option (option Js.number)),
      Presets.targetFPS (Presets.PERFORMANCE_SETTINGS window (DevicePerformance.tier s))
      = DevicePerformance.targetFPS s)
  /\ (forall (window : option (option Js.number)) (t : Types.PerformanceTier)
             (d : Types.DeviceType),
        Presets.antialias (Presets.PERFORMANCE_SETTINGS window t)
        = Canvas.antialias (App.canvasProps d t))
  /\ (forall (b : DevicePerformance.Browser) (x : Js.number),
        DevicePerformance.devicePixelRatio b = Some x ->
        Js.truthy x = true ->
        Presets.pixelRatio
          (Presets.PERFORMANCE_SETTINGS (Some (DevicePerformance.devicePixelRatio b)) Types.high)
        = DevicePerformance.pixelRatio b)
  /\ (forall b : DevicePerformance.Browser,
        DevicePerformance.devicePixelRatio b = None ->
        Presets.pixelRatio (Presets.PERFORMANCE_SETTINGS (Some None) Types.high) = Js.NaN
        /\ DevicePerformance.pixelRatio b = Js.Finite 1).
Proof.
  split; [| split; [| split]].
  - intros s window. unfold DevicePerformance.targetFPS.
    destruct (DevicePerformance.tier s); reflexivity.
  - intros window t d. destruct t, d; reflexivity.
  - intros b x Hx Ht. unfold DevicePerformance.pixelRatio, Js.or_else.
    rewrite Hx, Ht. reflexivity.
  - intros b Hb. unfold DevicePerformance.pixelRatio. rewrite Hb. split; reflexivity.
Qed.

Lemma settings_table_agrees_with_hook_witness :
  let b := {| DevicePerformance.webgl := None;
              DevicePerformance.experimental_webgl := None;
              DevicePerformance.userAgent := "Mozilla/5.0"%string;
              DevicePerformance.deviceMemory := None;
              DevicePerformance.devicePixelRatio := Some (Js.Finite 3) |} in
  Presets.pixelRatio
    (Presets.PERFORMANCE_SETTINGS (Some (DevicePerformance.devicePixelRatio b)) Types.high)
  = DevicePerformance.pixelRatio b.
Proof.
  intros b.
  destruct settings_table_agrees_with_hook as (_ & _ & H & _).
  apply (H b (Js.Finite 3)); reflexivity.
Defined.

(** ** Playback control: stopping, repeating, switching *)

Section PlaybackMore.
Import UseBearModel.

Lemma stop_stop (a : THREE.AnimationAction) : THREE.stop (THREE.stop a) = THREE.stop a.
Proof. reflexivity. Qed.

Lemma restarted_restarted (a b : THREE.AnimationAction) : restarted a = restarted b.
Proof. reflexivity. Qed.

Lemma stop_restarted (a : THREE.AnimationAction) :
  THREE.stop (restarted a)
  = {| THREE.isScheduled := false; THREE.enabled := true; THREE.paused := false;
       THREE.time := 0; THREE.loop := THREE.LoopRepeat;
       THREE.repetitions := THREE.Infinity; THREE.fading := None |}.
Proof. reflexivity. Qed.

Lemma controller_eq (c1 c2 : Controller) :
  (forall k : string, actions c1 !! k = actions c2 !! k) ->
  console c1 = console c2 -> c1 = c2.
Proof.
  destruct c1 as [m1 l1], c2 as [m2 l2]. cbn. intros Hm ->.
  f_equal. apply map_eq. exact Hm.
Qed.

End PlaybackMore.

(** X11. [stopAllAnimations] leaves no action scheduled or running, rewinds
    each one and drops any pending fade, keeps every action registered with
    its loop mode and repetition count, writes nothing to the console, and
    calling it again changes nothing. *)
Theorem stopAllAnimations_stops_everything :
  forall c : UseBearModel.Controller,
    let c' := UseBearModel.stopAllAnimations c in
    dom (UseBearModel.actions c') = dom (UseBearModel.actions c)
    /\ UseBearModel.console c' = UseBearModel.console c
    /\ (forall (k : string) (a : THREE.AnimationAction),
           UseBearModel.actions c' !! k = Some a ->
           THREE.isScheduled a = false /\ THREE.isRunning a = false
           /\ THREE.time a = 0%Q /\ THREE.fading a = None)
    /\ (forall (k : string) (a0 : THREE.AnimationAction),
           UseBearModel.actions c !! k = Some a0 ->
           exists a : THREE.AnimationAction,
             UseBearModel.actions c' !! k = Some a
             /\ THREE.loop a = THREE.loop a0
             /\ THREE.repetitions a = THREE.repetitions a0)
    /\ UseBearModel.stopAllAnimations c' = c'.
Proof.
  intros c c'. subst c'. unfold UseBearModel.stopAllAnimations. cbn [UseBearModel.actions
    UseBearModel.console].
  split; [apply dom_fmap_L |].
  split; [reflexivity |].
  split.
  { intros k a Hk. rewrite lookup_fmap in Hk.
    destruct (UseBearModel.actions c !! k) as [a0 |]; [| discriminate Hk].
    injection Hk as <-. repeat split. }
  split.
  { intros k a0 Hk. exists (THREE.stop a0). rewrite lookup_fmap, Hk. repeat split. }
  apply controller_eq; [| reflexivity].
  intros k. cbn [UseBearModel.actions]. rewrite !lookup_fmap.
  destruct (UseBearModel.actions c !! k); reflexivity.
Qed.

Lemma stopAllAnimations_stops_everything_witness :
  let playing := {| THREE.isScheduled := true; THREE.enabled := true; THREE.paused := false;
                    THREE.time := 1.5; THREE.loop := THREE.LoopRepeat;
                    THREE.repetitions := THREE.Infinity; THREE.fading := Some 0.5%Q |} in
  let c := {| UseBearModel.actions := <["dancing"%string := playing]> ∅;
              UseBearModel.console := [] |} in
  exists a : THREE.AnimationAction,
    UseBearModel.actions (UseBearModel.stopAllAnimations c) !! "dancing"%string = Some a
    /\ THREE.isRunning a = false
    /\ THREE.loop a = THREE.LoopRepeat.
Proof.
  intros playing c.
  destruct (stopAllAnimations_stops_everything c) as (_ & _ & Hstopped & Hkept & _).
  destruct (Hkept "dancing"%string playing) as (a & Ha & Hloop & _);
    [vm_compute; reflexivity |].
  exists a. split; [exact Ha |].
  split; [exact (proj1 (proj2 (Hstopped _ a Ha))) | exact Hloop].
Defined.

(** X12. Asking again for the animation that was just requested changes
    nothing: a second [playAnimation] with the same registered name ends in
    exactly the state the first one produced. *)
Theorem playAnimation_same_name_is_idempotent :
  forall (name : string) (c c1 : UseBearModel.Controller),
    is_Some (UseBearModel.actions c !! name) ->
    UseBearModel.playAnimation name c = Js.Normal c1 ->
    UseBearModel.playAnimation name c1 = Js.Normal c1.
Proof.
  intros name c c1 [a Ha] Hplay.
  destruct (playAnimation_known name c a Ha) as (c1' & H1 & Hcons1 & Hlook1).
  rewrite H1 in Hplay. injection Hplay as <-.
  assert (Ha1 : UseBearModel.actions c1' !! name = Some (UseBearModel.restarted a)).
  { rewrite Hlook1. destruct (decide (name = name)); [reflexivity | contradiction]. }
  destruct (playAnimation_known name c1' _ Ha1) as (c2 & H2 & Hcons2 & Hlook2).
  rewrite H2. f_equal. apply controller_eq; [| exact Hcons2].
  intros k. rewrite Hlook2, Hlook1.
  destruct (decide (k = name)); [reflexivity |].
  destruct (UseBearModel.actions c !! k); reflexivity.
Qed.

Lemma playAnimation_same_name_is_idempotent_witness :
  let idle := {| THREE.isScheduled := false; THREE.enabled := true; THREE.paused := true;
                 THREE.time := 0.75; THREE.loop := THREE.LoopOnce;
                 THREE.repetitions := THREE.Times 1; THREE.fading := None |} in
  let c := {| UseBearModel.actions :=
                <["walking"%string := idle]> (<["running"%string := idle]> ∅);
              UseBearModel.console := [] |} in
  exists c1 : UseBearModel.Controller,
    UseBearModel.playAnimation "walking" c = Js.Normal c1
    /\ UseBearModel.playAnimation "walking" c1 = Js.Normal c1.
Proof.
  intros idle c.
  destruct (playAnimation_known "walking"%string c idle) as (c1 & H1 & _).
  - vm_compute. reflexivity.
  - exists c1. split; [exact H1 |].
    apply (playAnimation_same_name_is_idempotent "walking"%string c c1).
    + eexists. vm_compute. reflexivity.
    + exact H1.
Defined.

(** X13. Switching from one registered animation to a different one is a
    hard cut for the outgoing action: it is unscheduled and rewound at once,
    with no fade pending, and keeps the endless-repeat loop it was given;
    the incoming action fades in over 0.5 s, which is the transition duration
    constant of 500 ms. *)
Theorem switching_is_a_hard_cut :
  forall (old new : string) (c : UseBearModel.Controller),
    is_Some (UseBearModel.actions c !! old) ->
    is_Some (UseBearModel.actions c !! new) ->
    old <> new ->
    exists (c' : UseBearModel.Controller) (out inc : THREE.AnimationAction),
      UseBearModel.playAll [old; new] c = Js.Normal c'
      /\ UseBearModel.actions c' !! old = Some out
      /\ UseBearModel.actions c' !! new = Some inc
      /\ out = {| THREE.isScheduled := false; THREE.enabled := true; THREE.paused := false;
                  THREE.time := 0; THREE.loop := THREE.LoopRepeat;
                  THREE.repetitions := THREE.Infinity; THREE.fading := None |}
      /\ THREE.isRunning inc = true
      /\ THREE.fading inc = Some 0.5%Q
      /\ (0.5 * 1000 == inject_Z Presets.ANIMATION_TRANSITION_DURATION)%Q.
Proof.
  intros old new c [a Ha] Hnew Hne.
  destruct (playAnimation_known old c a Ha) as (c1 & H1 & _ & Hlook1).
  assert (Hnew1 : is_Some (UseBearModel.actions c1 !! new)).
  { rewrite Hlook1. destruct (decide (new = old)); [eauto |].
    rewrite fmap_is_Some. exact Hnew. }
  destruct Hnew1 as [b Hb].
  destruct (playAnimation_known new c1 b Hb) as (c2 & H2 & _ & Hlook2).
  exists c2, (THREE.stop (UseBearModel.restarted a)), (UseBearModel.restarted b).
  split; [cbn; rewrite H1; cbn; rewrite H2; reflexivity |].
  split.
  { rewrite Hlook2. destruct (decide (old = new)); [contradiction |].
    rewrite Hlook1. destruct (decide (old = old)); [reflexivity | contradiction]. }
  split.
  { rewrite Hlook2. destruct (decide (new = new)); [reflexivity | contradiction]. }
  repeat split.
Qed.

Lemma switching_is_a_hard_cut_witness :
  let idle := {| THREE.isScheduled := false; THREE.enabled := true; THREE.paused := false;
                 THREE.time := 0; THREE.loop := THREE.LoopRepeat;
                 THREE.repetitions := THREE.Infinity; THREE.fading := None |} in
  let c := {| UseBearModel.actions :=
                <["walking"%string := idle]> (<["running"%string := idle]> ∅);
              UseBearModel.console := [] |} in
  exists c' : UseBearModel.Controller,
    UseBearModel.playAll ["walking"%string; "running"%string] c = Js.Normal c'.
Proof.
  intros idle c.
  destruct (switching_is_a_hard_cut "walking"%string "running"%string c)
    as (c' & _ & _ & H & _).
  - eexists. vm_compute. reflexivity.
  - eexists. vm_compute. reflexivity.
  - discriminate.
  - exists c'. exact H.
Defined.

(** ** Loading: the status effect, its notifications and the overlay *)

Section LoadingMore.
Import Types App.



End LoadingMore.

(** X14. The status effect reports "loaded" (progress 100) only for a scene
    that comes with at least one clip, and "error" with the message "Failed
    to load model" when there is no scene.  A scene without clips is neither:
    the state is left as it was, so from the initial state the hook stays in
    "loading" however often the effect runs. *)
Theorem statusEffect_outcomes :
  forall (scene : bool) (clips : nat) (s : UseBearModel.LoadState),
    (scene = true -> (0 < clips)%nat ->
     UseBearModel.statusEffect scene clips s
     = {| UseBearModel.status := Types.loaded;
          UseBearModel.error := UseBearModel.error s;
          UseBearModel.progress := 100 |})
    /\ (scene = false ->
        UseBearModel.statusEffect scene clips s
        = {| UseBearModel.status := Types.error;
             UseBearModel.error := Some "Failed to load model"%string;
             UseBearModel.progress := UseBearModel.progress s |})
    /\ (scene = true -> clips = 0%nat ->
        forall n : nat,
          Nat.iter n (UseBearModel.statusEffect scene clips) s = s)
    /\ UseBearModel.statusEffect scene clips (UseBearModel.statusEffect scene clips s)
       = UseBearModel.statusEffect scene clips s.
Proof.
  intros scene clips s.
  split; [| split; [| split]].
  - intros -> Hc. unfold UseBearModel.statusEffect.
    destruct (Nat.ltb_spec 0 clips); [reflexivity | lia].
  - intros ->. reflexivity.
  - intros -> -> n. induction n as [| n IH]; [reflexivity |].
    rewrite Nat.iter_succ, IH. reflexivity.
  - unfold UseBearModel.statusEffect.
    destruct scene; [destruct (Nat.ltb 0 clips) |]; reflexivity.
Qed.

Lemma statusEffect_outcomes_witness :
  UseBearModel.status
    (UseBearModel.statusEffect true 40 UseBearModel.initialLoadState) = Types.loaded
  /\ UseBearModel.status
       (UseBearModel.statusEffect false 0 UseBearModel.initialLoadState) = Types.error
  /\ Nat.iter 3 (UseBearModel.statusEffect true 0) UseBearModel.initialLoadState
     = UseBearModel.initialLoadState.
Proof.
  destruct (statusEffect_outcomes true 40 UseBearModel.initialLoadState) as (H1 & _).
  destruct (statusEffect_outcomes false 0 UseBearModel.initialLoadState) as (_ & H2 & _).
  destruct (statusEffect_outcomes true 0 UseBearModel.initialLoadState) as (_ & _ & H3 & _).
  split; [rewrite H1; [reflexivity | reflexivity | lia] |].
  split; [rewrite H2; reflexivity |].
  apply H3; reflexivity.
Defined.



(** X16. From selection to playback.  In every state the carousel can lead
    to, and with every catalog name registered as an action, the play effect
    of a loaded model leaves exactly the selected catalog entry's animation
    running; while the model is not loaded the effect plays nothing, writes
    no warning, and the component draws nothing. *)
Theorem selection_drives_playback :
  forall (dt0 dt : Types.DeviceType) (perf : DevicePerformance.State)
         (es : list App.Event) (c : UseBearModel.Controller),
    Forall (fun a => is_Some (UseBearModel.actions c !! Types.name a))
      AnimationConfig.ANIMATIONS ->
    let s := App.run dt0 es App.initialState in
    exists cur : Types.Animation,
      AnimationConfig.ANIMATIONS !! App.selectedIndex s = Some cur
      /\ (exists c' : UseBearModel.Controller,
             BearModel.playEffect Types.loaded (App.bearModelProps dt perf cur) c
             = Js.Normal c'
             /\ forall (k : string) (a : THREE.AnimationAction),
                  UseBearModel.actions c' !! k = Some a ->
                  (THREE.isRunning a = true <-> k = Types.name cur))
      /\ (forall st : UseBearModel.LoadState,
             UseBearModel.status st <> Types.loaded ->
             BearModel.playEffect (UseBearModel.status st)
               (App.bearModelProps dt perf cur) c = Js.Normal c
             /\ forall model : bool, BearModel.rendersModel st model = false).
Proof.
  intros dt0 dt perf es c Hall s.
  destruct (current_animation_defined s) as [cur Hcur].
  { apply run_index_in_range. cbn. lia. }
  exists cur. split; [exact Hcur |].
  split.
  - assert (Hin : In cur AnimationConfig.ANIMATIONS).
    { apply list_elem_of_In. eapply list_elem_of_lookup_2. exact Hcur. }
    rewrite Forall_forall in Hall.
    assert (Hreg : is_Some (UseBearModel.actions c !! Types.name cur)).
    { apply Hall. apply list_elem_of_In. exact Hin. }
    destruct Hreg as [a0 Ha0].
    destruct (playAnimation_known (Types.name cur) c a0 Ha0) as (c' & Hplay & _ & Hlook).
    exists c'. split; [exact Hplay |].
    intros k a Hka. rewrite Hlook in Hka.
    destruct (decide (k = Types.name cur)) as [-> | Hk].
    + injection Hka as <-. split; reflexivity.
    + destruct (UseBearModel.actions c !! k) as [b |]; [| discriminate Hka].
      injection Hka as <-. split; intros H; [discriminate H | contradiction].
  - intros st Hst. unfold BearModel.playEffect, BearModel.rendersModel.
    destruct (UseBearModel.status st); try contradiction; split; reflexivity.
Qed.

Lemma selection_drives_playback_witness :
  let idle := {| THREE.isScheduled := false; THREE.enabled := true; THREE.paused := false;
                 THREE.time := 0; THREE.loop := THREE.LoopRepeat;
                 THREE.repetitions := THREE.Infinity; THREE.fading := None |} in
  let c := {| UseBearModel.actions :=
                list_to_map (map (fun a => (Types.name a, idle)) AnimationConfig.ANIMATIONS);
              UseBearModel.console := [] |} in
  exists cur : Types.Animation,
    AnimationConfig.ANIMATIONS
      !! App.selectedIndex
           (App.run Types.desktop [App.CarouselNext; App.CarouselNext] App.initialState)
    = Some cur.
Proof.
  intros idle c.
  destruct (selection_drives_playback Types.desktop Types.desktop
              DevicePerformance.initialState [App.CarouselNext; App.CarouselNext] c)
    as (cur & Hcur & _).
  - assert (Hall : forallb
                     (fun a => bool_decide (is_Some (UseBearModel.actions c !! Types.name a)))
                     AnimationConfig.ANIMATIONS = true) by (vm_compute; reflexivity).
    rewrite forallb_forall in Hall.
    apply Forall_forall. intros a Ha.
    apply list_elem_of_In in Ha. apply Hall in Ha.
    apply bool_decide_eq_true_1 in Ha. exact Ha.
  - exists cur. exact Hcur.
Defined.

(** ** The carousel *)

(** X17. Stepping is bounded and never wraps around.  For any catalog and
    any selected index inside it, the previous and next handlers report an
    index inside the catalog that differs from the current one by exactly one
    step, except at the ends: at index 0 "previous" reports nothing and its
    button is disabled, at the last index "next" reports nothing and its
    button is disabled. *)
Theorem carousel_steps_are_bounded :
  forall p : AnimationCarousel.Props,
    (AnimationCarousel.selectedIndex p < length (AnimationCarousel.animations p))%nat ->
    let i := AnimationCarousel.selectedIndex p in
    let n := length (AnimationCarousel.animations p) in
    let prev := AnimationCarousel.handlePrev p (fun j _ => Some j) None in
    let next := AnimationCarousel.handleNext p (fun j _ => Some j) None in
    (prev = if decide (i = 0%nat) then None else Some (i - 1)%nat)
    /\ (next = if decide (S i = n) then None else Some (i + 1)%nat)
    /\ (forall j : nat, prev = Some j \/ next = Some j -> (j < n)%nat)
    /\ AnimationCarousel.prevDisabled p = bool_decide (i = 0%nat)
    /\ AnimationCarousel.nextDisabled p = bool_decide (S i = n).
Proof.
  intros p Hi i n prev next.
  assert (Hprev : prev = if decide (i = 0%nat) then None else Some (i - 1)%nat).
  { subst prev. unfold AnimationCarousel.handlePrev, AnimationCarousel.hasPrev. fold i.
    destruct (Nat.ltb_spec 0 i); destruct (decide (i = 0%nat)); try reflexivity; lia. }
  assert (Hnext : next = if decide (S i = n) then None else Some (i + 1)%nat).
  { subst next. unfold AnimationCarousel.handleNext, AnimationCarousel.hasNext. fold i n.
    destruct (Z.ltb_spec (Z.of_nat i) (Z.of_nat n - 1)); destruct (decide (S i = n));
      try reflexivity; lia. }
  split; [exact Hprev |]. split; [exact Hnext |].
  split.
  { intros j [Hj | Hj].
    - rewrite Hprev in Hj. destruct (decide (i = 0%nat)); [discriminate Hj |].
      injection Hj as <-. subst i n. lia.
    - rewrite Hnext in Hj. destruct (decide (S i = n)); [discriminate Hj |].
      injection Hj as <-. subst i n. lia. }
  split.
  - unfold AnimationCarousel.prevDisabled, AnimationCarousel.hasPrev. fold i.
    destruct (Nat.ltb_spec 0 i); cbn; [rewrite bool_decide_eq_false_2 | rewrite bool_decide_eq_true_2];
      first [reflexivity | lia].
  - unfold AnimationCarousel.nextDisabled, AnimationCarousel.hasNext. fold i n.
    destruct (Z.ltb_spec (Z.of_nat i) (Z.of_nat n - 1)); cbn;
      [rewrite bool_decide_eq_false_2 | rewrite bool_decide_eq_true_2];
      first [reflexivity | subst i n; lia].
Qed.

Lemma carousel_steps_are_bounded_witness :
  let p := {| AnimationCarousel.animations := AnimationConfig.ANIMATIONS;
              AnimationCarousel.selectedIndex := 39;
              AnimationCarousel.deviceType := Types.mobile |} in
  AnimationCarousel.handleNext p (fun j _ => Some j) None = None
  /\ AnimationCarousel.handlePrev p (fun j _ => Some j) None = Some 38%nat.
Proof.
  intros p.
  destruct (carousel_steps_are_bounded p) as (Hprev & Hnext & _).
  - cbn. lia.
  - split; [rewrite Hnext | rewrite Hprev]; reflexivity.
Defined.

(** X19. Next and previous undo each other: away from the last entry, a
    step forward followed by a step back restores the whole application
    state, and away from the first entry so does a step back followed by a
    step forward. *)
Theorem carousel_next_prev_round_trip :
  forall (dt : Types.DeviceType) (s : App.State),
    ((App.selectedIndex s < 39)%nat ->
     App.step dt (App.step dt s App.CarouselNext) App.CarouselPrev = s)
    /\ ((0 < App.selectedIndex s < 40)%nat ->
        App.step dt (App.step dt s App.CarouselPrev) App.CarouselNext = s).
Proof.
  intros dt [i l st]. cbn [App.selectedIndex]. split; intros Hi.
  - cbn [App.step]. unfold AnimationCarousel.handleNext, AnimationCarousel.hasNext.
    cbn [App.carouselProps AnimationCarousel.selectedIndex AnimationCarousel.animations
         App.selectedIndex].
    rewrite catalog_length.
    destruct (Z.ltb_spec (Z.of_nat i) (Z.of_nat 40 - 1)); [| lia].
    unfold AnimationCarousel.handlePrev, AnimationCarousel.hasPrev.
    cbn [App.carouselProps AnimationCarousel.selectedIndex App.handleAnimationSelect
         App.setSelectedIndex App.selectedIndex App.isModelLoading App.hasStarted].
    destruct (Nat.ltb_spec 0 (i + 1)); [| lia].
    unfold App.handleAnimationSelect, App.setSelectedIndex. cbn.
    f_equal. lia.
  - cbn [App.step]. unfold AnimationCarousel.handlePrev, AnimationCarousel.hasPrev.
    cbn [App.carouselProps AnimationCarousel.selectedIndex App.selectedIndex].
    destruct (Nat.ltb_spec 0 i); [| lia].
    unfold AnimationCarousel.handleNext, AnimationCarousel.hasNext.
    cbn [App.carouselProps AnimationCarousel.selectedIndex AnimationCarousel.animations
         App.handleAnimationSelect App.setSelectedIndex App.selectedIndex
         App.isModelLoading App.hasStarted].
    rewrite catalog_length.
    destruct (Z.ltb_spec (Z.of_nat (i - 1)) (Z.of_nat 40 - 1)); [| lia].
    unfold App.handleAnimationSelect, App.setSelectedIndex. cbn.
    f_equal. lia.
Qed.

Lemma carousel_next_prev_round_trip_witness :
  App.step Types.tablet (App.step Types.tablet App.initialState App.CarouselNext)
    App.CarouselPrev = App.initialState.
Proof.
  destruct (carousel_next_prev_round_trip Types.tablet App.initialState) as [H _].
  apply H. cbn. lia.
Defined.

(** ** The catalog *)

Section CatalogMore.
Import Types AnimationConfig.

Lemma assoc_In (k : string) (v : Animation) (l : list (string * Animation)) :
  assoc k l = Some v -> In (k, v) l.
Proof.
  induction l as [| [k' v'] l IH]; cbn; [discriminate |].
  destruct (String.eqb_spec k k') as [-> | Hne].
  - intros H. injection H as ->. left. reflexivity.
  - intros H. right. exact (IH H).
Qed.

Lemma assoc_NoDup (k : string) (v : Animation) (l : list (string * Animation)) :
  NoDup (map fst l) -> In (k, v) l -> assoc k l = Some v.
Proof.
  induction l as [| [k' v'] l IH]; cbn; [intros _ [] |].
  intros Hnd [Heq | Hin].
  - injection Heq as -> ->. rewrite String.eqb_refl. reflexivity.
  - apply NoDup_cons in Hnd. destruct Hnd as [Hk' Hnd].
    destruct (String.eqb_spec k k') as [-> | Hne].
    + exfalso. apply Hk'. apply list_elem_of_In.
      apply in_map_iff. exists (k', v). split; [reflexivity | exact Hin].
    + exact (IH Hnd Hin).
Qed.

Lemma assoc_missing (k : string) (l : list (string * Animation)) :
  ~ In k (map fst l) -> assoc k l = None.
Proof.
  induction l as [| [k' v'] l IH]; cbn; [reflexivity |].
  intros Hnot. destruct (String.eqb_spec k k') as [-> | Hne].
  - exfalso. apply Hnot. left. reflexivity.
  - apply IH. intros Hin. apply Hnot. right. exact Hin.
Qed.

Lemma catalog_keys_NoDup : NoDup (map fst ANIMATION_CONFIG).
Proof.
  refine (bool_decide_eq_true_1 (NoDup (map fst ANIMATION_CONFIG)) _).
  vm_compute. reflexivity.
Qed.

Lemma catalog_keys_are_names (k : string) (a : Animation) :
  In (k, a) ANIMATION_CONFIG -> id a = k /\ name a = k.
Proof.
  assert (Hall : forallb (fun e => String.eqb (id (snd e)) (fst e)
                                   && String.eqb (name (snd e)) (fst e))
                   ANIMATION_CONFIG = true) by (vm_compute; reflexivity).
  rewrite forallb_forall in Hall. intros Hin. apply Hall in Hin. cbn [fst snd] in Hin.
  apply andb_prop in Hin. destruct Hin as [H1 H2].
  split; apply String.eqb_eq; assumption.
Qed.

Lemma catalog_display_names (a : Animation) :
  In a ANIMATIONS -> displayName a <> ""%string /\ displayName a <> "Loading..."%string.
Proof.
  assert (Hall : forallb (fun a => negb (String.eqb (displayName a) "")
                                   && negb (String.eqb (displayName a) "Loading..."))
                   ANIMATIONS = true) by (vm_compute; reflexivity).
  rewrite forallb_forall in Hall. intros Hin. apply Hall in Hin.
  apply andb_prop in Hin. destruct Hin as [H1 H2].
  apply negb_true_iff in H1, H2.
  split; apply String.eqb_neq; assumption.
Qed.

End CatalogMore.

(** X20. The catalog is a sound lookup table: its keys are the 40 names of
    the type [ActionName], pairwise different, and every entry carries its
    key as both id and name.  [getAnimationByName] finds every entry under
    its own name and returns only entries of the catalog.  For a name that is
    no key it gives [undefined], except for the names of members every object
    inherits, such as "toString": there it returns that inherited member.
    The default animation is the first entry. *)
Theorem catalog_lookup_is_sound :
  NoDup (map fst AnimationConfig.ANIMATION_CONFIG)
  /\ map fst AnimationConfig.ANIMATION_CONFIG = Types.ActionName
  /\ length AnimationConfig.ANIMATIONS = 40%nat
  /\ (forall (k : string) (a : Types.Animation),
         In (k, a) AnimationConfig.ANIMATION_CONFIG -> Types.id a = k /\ Types.name a = k)
  /\ (forall a : Types.Animation,
         In a AnimationConfig.ANIMATIONS ->
         AnimationConfig.getAnimationByName (Types.name a) = Js.Own a)
  /\ (forall (n : string) (a : Types.Animation),
         AnimationConfig.getAnimationByName n = Js.Own a ->
         Types.name a = n /\ In a AnimationConfig.ANIMATIONS)
  /\ (forall n : string,
         ~ In n (map fst AnimationConfig.ANIMATION_CONFIG) ->
         (n ∉ Js.objectPrototypeKeys ->
          AnimationConfig.getAnimationByName n = Js.Missing)
         /\ (n ∈ Js.objectPrototypeKeys ->
             AnimationConfig.getAnimationByName n = Js.Inherited))
  /\ (exists first : Types.Animation,
         AnimationConfig.ANIMATIONS !! 0%nat = Some first
         /\ AnimationConfig.getAnimationByName AnimationConfig.DEFAULT_ANIMATION
            = Js.Own first).
Proof.
  split; [exact catalog_keys_NoDup |].
  split; [reflexivity |].
  split; [reflexivity |].
  split; [exact catalog_keys_are_names |].
  split.
  { intros a Hin. unfold AnimationConfig.ANIMATIONS in Hin.
    apply in_map_iff in Hin. destruct Hin as ([k a'] & Heq & Hin). cbn in Heq. subst a'.
    destruct (catalog_keys_are_names k a Hin) as [_ ->].
    unfold AnimationConfig.getAnimationByName.
    rewrite (assoc_NoDup k a _ catalog_keys_NoDup Hin). reflexivity. }
  split.
  { intros n a Hget. unfold AnimationConfig.getAnimationByName, Js.member in Hget.
    destruct (AnimationConfig.assoc n AnimationConfig.ANIMATION_CONFIG) as [a' |] eqn:Ha.
    - injection Hget as ->. apply assoc_In in Ha.
      split; [exact (proj2 (catalog_keys_are_names n a Ha)) |].
      unfold AnimationConfig.ANIMATIONS. apply in_map_iff.
      exists (n, a). split; [reflexivity | exact Ha].
    - destruct (bool_decide (n ∈ Js.objectPrototypeKeys)); discriminate Hget. }
  split.
  { intros n Hn. unfold AnimationConfig.getAnimationByName.
    rewrite (assoc_missing n _ Hn).
    split; [apply member_missing | apply member_inherited]. }
  eexists. split; reflexivity.
Qed.

Lemma catalog_lookup_is_sound_witness :
  AnimationConfig.getAnimationByName "moonwalk" = Js.Missing
  /\ AnimationConfig.getAnimationByName "toString" = Js.Inherited
  /\ exists a : Types.Animation,
       AnimationConfig.getAnimationByName "punching" = Js.Own a
       /\ Types.name a = "punching"%string.
Proof.
  destruct catalog_lookup_is_sound as (_ & _ & _ & _ & _ & Hown & Hother & _).
  assert (Hkey : forall n : string,
             bool_decide (n ∈ map fst AnimationConfig.ANIMATION_CONFIG) = false ->
             ~ In n (map fst AnimationConfig.ANIMATION_CONFIG)).
  { intros n Hn Hin. apply list_elem_of_In in Hin.
    apply bool_decide_eq_false_1 in Hn. exact (Hn Hin). }
  split; [| split].
  - apply (Hother "moonwalk"%string); [apply Hkey; vm_compute; reflexivity |].
    refine (bool_decide_eq_false_1 ("moonwalk"%string ∈ Js.objectPrototypeKeys) _).
    vm_compute. reflexivity.
  - apply (Hother "toString"%string); [apply Hkey; vm_compute; reflexivity |].
    refine (bool_decide_eq_true_1 ("toString"%string ∈ Js.objectPrototypeKeys) _).
    vm_compute. reflexivity.
  - destruct (AnimationConfig.getAnimationByName "punching") as [a | |] eqn:Ha;
      [| vm_compute in Ha; discriminate Ha | vm_compute in Ha; discriminate Ha].
    exists a. split; [reflexivity |]. exact (proj1 (Hown _ a Ha)).
Defined.

(** X21. In every state the carousel can lead to, its caption is the display
    name of the selected catalog entry, never the "Loading..." placeholder,
    and its counter reads a position between 1 and 40 out of 40.  The
    placeholder is what a carousel shows whose index lies outside its list. *)
Theorem carousel_caption_names_selection :
  (forall (dt0 dt : Types.DeviceType) (es : list App.Event),
      let s := App.run dt0 es App.initialState in
      let p := App.carouselProps dt s in
      exists cur : Types.Animation,
        AnimationConfig.ANIMATIONS !! App.selectedIndex s = Some cur
        /\ AnimationCarousel.label p = Types.displayName cur
        /\ AnimationCarousel.label p <> "Loading..."%string
        /\ (1 <= fst (AnimationCarousel.counter p) <= 40)%Z
        /\ snd (AnimationCarousel.counter p) = 40%Z)
  /\ (forall p : AnimationCarousel.Props,
         (length (AnimationCarousel.animations p) <= AnimationCarousel.selectedIndex p)%nat ->
         AnimationCarousel.label p = "Loading..."%string).
Proof.
  split.
  - intros dt0 dt es s p.
    assert (Hrange : (App.selectedIndex s < 40)%nat).
    { apply run_index_in_range. cbn. lia. }
    destruct (current_animation_defined s Hrange) as [cur Hcur].
    exists cur. split; [exact Hcur |].
    assert (Hin : In cur AnimationConfig.ANIMATIONS).
    { apply list_elem_of_In. eapply list_elem_of_lookup_2. exact Hcur. }
    destruct (catalog_display_names cur Hin) as [Hne Hnl].
    assert (Hlabel : AnimationCarousel.label p = Types.displayName cur).
    { subst p. unfold AnimationCarousel.label.
      cbn [App.carouselProps AnimationCarousel.animations AnimationCarousel.selectedIndex].
      rewrite Hcur. apply String.eqb_neq in Hne. rewrite Hne. reflexivity. }
    split; [exact Hlabel |].
    split; [rewrite Hlabel; exact Hnl |].
    subst p. unfold AnimationCarousel.counter.
    cbn [App.carouselProps AnimationCarousel.animations AnimationCarousel.selectedIndex fst snd].
    rewrite catalog_length. split; [lia | reflexivity].
  - intros p Hout. unfold AnimationCarousel.label.
    rewrite (proj2 (lookup_ge_None _ _) Hout). reflexivity.
Qed.

Lemma carousel_caption_names_selection_witness :
  AnimationCarousel.label
    {| AnimationCarousel.animations := [];
       AnimationCarousel.selectedIndex := 0;
       AnimationCarousel.deviceType := Types.desktop |} = "Loading..."%string.
Proof.
  destruct carousel_caption_names_selection as [_ H].
  apply H. cbn. lia.
Defined.

(** ** The error boundary and the start overlay as components *)

(** X22. A boundary in its initial state never lets a rendering exception
    of its subtree escape: the subtree's own output passes through when it
    renders, and otherwise the boundary shows a fallback.  The fallback is
    whatever a fallback function returns for the error, else the fallback
    node if that node is truthy, else the default UI; so a falsy node
    ([null], [false], [0], the empty string) gives the default UI just as an
    absent prop does.  Once the boundary holds an error it shows that
    fallback without rendering its children at all.  A state whose flag is
    set without an error object still renders the children. *)
Theorem boundary_contains_render_errors :
  forall (raises : App.Leaf -> option ErrorBoundary.Error)
         (fb : ErrorBoundary.Fallback App.Dom) (child : App.Element)
         (e : ErrorBoundary.Error),
    let fallbackFor (err : ErrorBoundary.Error) : App.Dom :=
      match fb with
      | ErrorBoundary.FallbackFn f => App.show (f err)
      | ErrorBoundary.FallbackNode n =>
          if ErrorBoundary.truthy n then App.show n else App.defaultErrorUI err
      | ErrorBoundary.NoFallback => App.defaultErrorUI err
      end in
    (exists d : App.Dom,
        App.mount raises (App.Boundary ErrorBoundary.initialState fb child) = inr d)
    /\ (forall d : App.Dom,
           App.mount raises child = inr d ->
           App.mount raises (App.Boundary ErrorBoundary.initialState fb child) = inr d)
    /\ (App.mount raises child = inl e ->
        App.mount raises (App.Boundary ErrorBoundary.initialState fb child)
        = inr (fallbackFor e))
    /\ (forall (raises' : App.Leaf -> option ErrorBoundary.Error) (child' : App.Element),
           App.mount raises'
             (App.Boundary (ErrorBoundary.getDerivedStateFromError e) fb child')
           = inr (fallbackFor e))
    /\ (forall n : ErrorBoundary.ReactNode App.Dom,
           fb = ErrorBoundary.FallbackNode n -> ErrorBoundary.truthy n = false ->
           fallbackFor e = App.defaultErrorUI e)
    /\ App.mount raises
         (App.Boundary {| ErrorBoundary.hasError := true; ErrorBoundary.error := None |}
            fb child)
       = App.mount raises (App.Boundary ErrorBoundary.initialState fb child).
Proof.
  intros raises fb child e fallbackFor. subst fallbackFor.
  cbn [App.mount ErrorBoundary.render ErrorBoundary.initialState ErrorBoundary.hasError
       ErrorBoundary.error ErrorBoundary.getDerivedStateFromError].
  split.
  { destruct (App.mount raises child) as [err | d]; [| eauto].
    destruct fb as [| n | f]; [eauto | destruct (ErrorBoundary.truthy n); eauto | eauto]. }
  split; [intros d ->; reflexivity |].
  split.
  { intros ->. destruct fb as [| n | f];
      [reflexivity | destruct (ErrorBoundary.truthy n); reflexivity | reflexivity]. }
  split.
  { intros raises' child'. destruct fb as [| n | f];
      [reflexivity | destruct (ErrorBoundary.truthy n); reflexivity | reflexivity]. }
  split; [intros n -> Hn; rewrite Hn; reflexivity |].
  reflexivity.
Qed.

Lemma boundary_contains_render_errors_witness :
  let err := {| ErrorBoundary.message := "" |} in
  let raises := fun l : App.Leaf =>
                  match l with App.Carousel _ => Some err | _ => None end in
  let child := App.Div "row" [App.Host App.MinWidthWarning;
                              App.Host (App.Carousel (App.carouselProps Types.desktop
                                                        App.initialState))] in
  App.mount raises
    (App.Boundary ErrorBoundary.initialState
       (ErrorBoundary.FallbackNode (ErrorBoundary.NodeText "")) child)
  = inr (App.ErrorMessage "Unable to Load 3D Bear" None).
Proof.
  intros err raises child.
  destruct (boundary_contains_render_errors raises
              (ErrorBoundary.FallbackNode (ErrorBoundary.NodeText "")) child err)
    as (_ & _ & H & _).
  rewrite H; reflexivity.
Defined.

(** ** The composition root *)

(** X24. [App] itself never throws in any state the carousel can lead to:
    the selected index always names a catalog entry, so the markup is built.
    An index outside the catalog, which no event produces, would make [App]
    throw while building the markup, outside the error boundary, and leave
    the page blank. *)
Theorem app_renders_in_every_reachable_state :
  (forall (r : Responsive.UseResponsiveReturn) (perf : DevicePerformance.State)
          (boundary : ErrorBoundary.State) (dt : Types.DeviceType) (es : list App.Event),
      exists el : App.Element,
        App.render r perf boundary (App.run dt es App.initialState) = Js.Normal el)
  /\ (forall (r : Responsive.UseResponsiveReturn) (perf : DevicePerformance.State)
             (boundary : ErrorBoundary.State) (s : App.State)
             (raises : App.Leaf -> option ErrorBoundary.Error),
         (40 <= App.selectedIndex s)%nat ->
         (exists e : Js.Exception, App.render r perf boundary s = Js.Throw e)
         /\ App.screen raises (App.render r perf boundary s) = None).
Proof.
  split.
  - intros r perf boundary dt es.
    destruct (current_animation_defined (App.run dt es App.initialState)) as [cur Hcur].
    { apply run_index_in_range. cbn. lia. }
    unfold App.render. rewrite Hcur. cbn [Js.deref Js.bind]. eauto.
  - intros r perf boundary s raises Hout.
    assert (Hnone : AnimationConfig.ANIMATIONS !! App.selectedIndex s = None).
    { apply lookup_ge_None. rewrite catalog_length. exact Hout. }
    unfold App.render. rewrite Hnone. cbn. split; [eauto | reflexivity].
Qed.

Lemma app_renders_in_every_reachable_state_witness :
  App.screen (fun _ => None)
    (App.render (Responsive.useResponsive 1280 720) DevicePerformance.initialState
       ErrorBoundary.initialState (App.handleAnimationSelect 40 App.initialState))
  = None.
Proof.
  destruct app_renders_in_every_reachable_state as [_ H].
  destruct (H (Responsive.useResponsive 1280 720) DevicePerformance.initialState
              ErrorBoundary.initialState (App.handleAnimationSelect 40 App.initialState)
              (fun _ => None)) as [_ Hblank].
  - cbn. lia.
  - exact Hblank.
Defined.

Section AppFrame.
Import Types App.

Lemma step_frame (dt : DeviceType) (s0 : State) (e0 : Event) :
  (selectedIndex (step dt s0 e0) <> selectedIndex s0 ->
   match e0 with
   | CarouselPrev | CarouselNext | CarouselKeyDown _ => True
   | _ => False
   end)
  /\ (isModelLoading (step dt s0 e0) <> isModelLoading s0 ->
      (e0 = LoadComplete \/ e0 = LoadError)
      /\ isModelLoading s0 = true
      /\ isModelLoading (step dt s0 e0) = false)
  /\ (hasStarted (step dt s0 e0) <> hasStarted s0 ->
      isTap e0 = true /\ hasStarted s0 = false
      /\ hasStarted (step dt s0 e0) = true).
Proof.
  destruct s0 as [i l st].
  destruct e0 as [| key | | | | | key]; cbn [step hasStarted isModelLoading
    selectedIndex isTap];
    unfold TapToStart.handleClick, TapToStart.onKeyDown, AnimationCarousel.handleKeyDown,
      AnimationCarousel.handlePrev, AnimationCarousel.handleNext;
    repeat match goal with
           | |- context [if ?c then _ else _] => destruct c eqn:?
           end;
    cbn; repeat split; intros; try contradiction; try congruence; auto;
    destruct l; cbn in *; try congruence; auto.
Qed.

Lemma run_loading_stays_false (dt : DeviceType) (es : list Event) (s : State) :
  isModelLoading s = false -> isModelLoading (run dt es s) = false.
Proof.
  revert s. induction es as [| e es IH]; intros s Hl; [exact Hl |].
  cbn [run fold_left]. apply IH.
  destruct (step_frame dt s e) as (_ & H & _).
  destruct (isModelLoading (step dt s e)) eqn:E; [| reflexivity].
  exfalso. destruct H as (_ & Ht & _); congruence.
Qed.

End AppFrame.

(** X25. Each event touches only its own part of the state.  The selected
    index changes only on a carousel event; the loading flag changes only on
    a load notification, and only from true to false, so loading is never
    re-entered; the started flag changes only on a tap, and only from false
    to true. *)
Theorem events_touch_only_their_state :
  forall (dt : Types.DeviceType) (s : App.State) (e : App.Event),
    let s' := App.step dt s e in
    (App.selectedIndex s' <> App.selectedIndex s ->
     match e with
     | App.CarouselPrev | App.CarouselNext | App.CarouselKeyDown _ => True
     | _ => False
     end)
    /\ (App.isModelLoading s' <> App.isModelLoading s ->
        (e = App.LoadComplete \/ e = App.LoadError)
        /\ App.isModelLoading s = true /\ App.isModelLoading s' = false)
    /\ (App.hasStarted s' <> App.hasStarted s ->
        App.isTap e = true /\ App.hasStarted s = false /\ App.hasStarted s' = true)
    /\ (forall es : list App.Event,
           App.isModelLoading s = false ->
           App.isModelLoading (App.run dt es s) = false).
Proof.
  intros dt s e s'. subst s'.
  destruct (step_frame dt s e) as (H1 & H2 & H3).
  split; [exact H1 |]. split; [exact H2 |]. split; [exact H3 |].
  intros es. apply run_loading_stays_false.
Qed.

Lemma events_touch_only_their_state_witness :
  App.isTap (App.OverlayKeyDown " ") = true.
Proof.
  destruct (events_touch_only_their_state Types.desktop
              (App.setIsModelLoading false App.initialState) (App.OverlayKeyDown " "))
    as (_ & _ & H & _).
  apply H. discriminate.
Defined.

(** X26. Nothing shrinks as the viewport widens: for widths [w1 <= w2] the
    model scale, the background's base width and scale, and the canvas pixel
    ratio chosen for [w2] are at least those chosen for [w1], and the model
    sits at least as low. *)
Theorem presets_grow_with_width :
  forall (w1 w2 : Z) (tier : Types.PerformanceTier),
    (w1 <= w2)%Z ->
    let d1 := Responsive.deviceTypeOf w1 in
    let d2 := Responsive.deviceTypeOf w2 in
    (App.bearScale d1 <= App.bearScale d2)%Q
    /\ (App.prismBaseWidth d1 <= App.prismBaseWidth d2)%Q
    /\ (App.prismScale d1 <= App.prismScale d2)%Q
    /\ (Canvas.dpr (App.canvasProps d1 tier) <= Canvas.dpr (App.canvasProps d2 tier))%Q
    /\ (App.bearYPosition d2 <= App.bearYPosition d1)%Q.
Proof.
  intros w1 w2 tier Hle d1 d2. subst d1 d2.
  unfold Responsive.deviceTypeOf, Types.BREAKPOINTS.mobile, Types.BREAKPOINTS.tablet.
  destruct (Z.ltb_spec w1 768); destruct (Z.ltb_spec w2 768); try lia;
    destruct (Z.ltb_spec w1 1024); destruct (Z.ltb_spec w2 1024); try lia;
    destruct tier; repeat split; vm_compute; discriminate.
Qed.

Lemma presets_grow_with_width_witness :
  (App.bearScale (Responsive.deviceTypeOf 600) <= App.bearScale (Responsive.deviceTypeOf 1280))%Q.
Proof.
  destruct (presets_grow_with_width 600 1280 Types.high) as [H _]; [lia | exact H].
Defined.
